(** * radio3: the two Piper text-to-speech HTTP workers

    A shallow embedding of [workers/tts-server/server.py] (several voice
    models, MD5 cache key over text, model and speed) and of
    [workers/piper-tts/server.py] (one voice loaded at start-up, SHA-256
    cache key over the text), together with the properties of their
    synthesis cache, model table and duration computation, and of
    [analyze_lufs] of [scripts/analyze-audio.py].

    Python values are modelled as follows.
    - [str] and [bytes]: [string] (the UTF-8 encoding) and [list byte];
    - [float]: IEEE binary64 as [spec_float] with the operations of
      [SpecFloat] at precision 53 and exponent bound 1024;
    - [dict]: [gmap]; the cache directory is a map from file names to
      file contents;
    - exceptions: a result type threaded through a program tree whose
      nodes are the handler's effects on the file system, on the model
      table and on the Piper backend.
    The library functions the workers call ([hashlib], [wave],
    [PiperVoice], float formatting and parsing) are collected in the record
    [runtime]; every theorem holds for every such runtime. *)

From Stdlib Require Import ZArith String Ascii List Bool Lia DecimalString.
From Stdlib Require Import Floats.SpecFloat.
From stdpp Require Import base option gmap strings list.

Local Open Scope string_scope.
Local Open Scope list_scope.
Local Open Scope Z_scope.

(** ** Python floats *)

Module Float64.

Definition prec : Z := 53.
Definition emax : Z := 1024.

Definition fdiv : spec_float -> spec_float -> spec_float := SFdiv prec emax.

  (** [float(z)] for an integer [z], rounding to nearest even. *)
Definition of_Z (z : Z) : spec_float := binary_normalize prec emax z 0 false.

Definition one : spec_float := of_Z 1.

Definition is_zero (x : spec_float) : bool :=
    match x with S754_zero _ => true | _ => false end.

Definition is_infinite (x : spec_float) : bool :=
    match x with S754_infinity _ => true | _ => false end.

  (** The integer nearest to [m * 2^e * 100], ties to even. *)
Definition scaled_half_even (m : positive) (e : Z) : Z :=
    let n := Zpos m * 100 in
    if 0 <=? e then n * 2 ^ e
    else
      let d := 2 ^ (- e) in
      let q := n / d in
      let r := n mod d in
      match Z.compare (2 * r) d with
      | Lt => q
      | Gt => q + 1
      | Eq => if Z.even q then q else q + 1
      end.

  (** [round(x, 2)]: the exact value of [x] is rounded half-even to two
      decimal places and the decimal is converted back to the nearest
      float; infinities, NaN and zeros round to themselves and the sign
      is kept. *)
Definition round2 (x : spec_float) : spec_float :=
    match x with
    | S754_finite s m e =>
        match scaled_half_even m e with
        | Zpos n => fdiv (S754_finite s n 0) (S754_finite false 100 0)
        | _ => S754_zero s
        end
    | _ => x
    end.

  (** The exact value of a float as a fraction [(numerator, denominator)];
      [None] for infinities and NaN. *)
Definition to_frac (x : spec_float) : option (Z * Z) :=
    match x with
    | S754_zero _ => Some (0, 1)
    | S754_finite s m e =>
        let n := if s then Zneg m else Zpos m in
        Some (if 0 <=? e then (n * 2 ^ e, 1) else (n, 2 ^ (- e)))
    | _ => None
    end.

End Float64.

#[global] Instance spec_float_eq_dec : EqDecision spec_float.
Proof. solve_decision. Defined.

(** ** Exceptions and results *)

Inductive exn : Type :=
| ValueError
| TypeError
| OverflowError
| ZeroDivisionError
| AttributeError
| EOFError
| FileNotFoundError (path : string)
| WaveError (msg : string)
| LibraryError (code : nat).

Inductive result (A : Type) : Type :=
| Ok (a : A)
| Err (e : exn).
Arguments Ok {A} a.
Arguments Err {A} e.

Definition bytes : Type := list Byte.byte.

(** ** JSON scalars of a request body

    Arrays and objects as field values are not modelled. *)

Inductive json : Type :=
| JNull
| JBool (b : bool)
| JInt (z : Z)
| JFloat (f : spec_float)
| JStr (s : string).

(** Python truth value. *)
Definition truthy (j : json) : bool :=
  match j with
  | JNull => false
  | JBool b => b
  | JInt z => negb (z =? 0)
  | JFloat f => negb (Float64.is_zero f)
  | JStr s => negb (String.eqb s "")
  end.

(** [not text] for a field that is a string, absent or null. *)
Definition str_truthy (s : option string) : bool :=
  match s with
  | Some t => negb (String.eqb t "")
  | None => false
  end.

(** [a / b] on floats raises on a zero divisor. *)
Definition py_truediv (a b : spec_float) : result spec_float :=
  if Float64.is_zero b then Err ZeroDivisionError else Ok (Float64.fdiv a b).

(** [bytes.hex()] *)
Definition hex_digit (n : N) : ascii :=
  match n with
  | 0%N => "0" | 1%N => "1" | 2%N => "2" | 3%N => "3" | 4%N => "4"
  | 5%N => "5" | 6%N => "6" | 7%N => "7" | 8%N => "8" | 9%N => "9"
  | 10%N => "a" | 11%N => "b" | 12%N => "c" | 13%N => "d" | 14%N => "e"
  | _ => "f"
  end%char.

Fixpoint hex (b : bytes) : string :=
  match b with
  | [] => ""
  | x :: r =>
      let n := Byte.to_N x in
      String (hex_digit (n / 16)) (String (hex_digit (n mod 16)) (hex r))
  end.

(** ** The library functions the workers call *)

(** A loaded [PiperVoice] object.  [voice_id] is the identity of the
    object: every [PiperVoice.load] creates a new one, numbered by the
    loads attempted before it. *)
Record voice : Type := Voice { voice_id : nat; voice_path : string }.

#[global] Instance voice_eq_dec : EqDecision voice.
Proof. solve_decision. Defined.

(** What [wave.open(..., 'rb')] reads from the container:
    [getnframes()] and [getframerate()]. *)
Record wave_params : Type := WaveParams { nframes : Z; framerate : Z }.

Record runtime : Type := Runtime {
  (** [hashlib.md5(s.encode()).hexdigest()] *)
  md5_hex : string -> string;
  (** [hashlib.sha256(s.encode()).hexdigest()] *)
  sha256_hex : string -> string;
  (** [f"{x}"] for a float [x] *)
  float_repr : spec_float -> string;
  (** [float(s)] for a string [s]; [None] when it raises [ValueError] *)
  parse_float : string -> option spec_float;
  (** [wave.open(f, 'rb')] on the bytes of [f] *)
  wave_open : bytes -> result wave_params;
  (** [PiperVoice.load(path)] on an existing file: the exception raised,
      if any *)
  piper_load : string -> option exn;
  (** The WAV bytes left in the buffer by [voice.synthesize(text, wav,
      length_scale=ls)] (with [Some ls]) or [voice.synthesize_wav(text,
      wav)] (with [None]), or the exception that leaves the [with] block.
      The first argument counts the earlier backend calls of the process:
      the backend need not be deterministic. *)
  piper_synthesize :
    nat -> voice -> string -> option spec_float -> result bytes
}.

(** [float(x)] for a JSON scalar. *)
Definition py_float (rt : runtime) (j : json) : result spec_float :=
  match j with
  | JNull => Err TypeError
  | JBool b => Ok (if b then Float64.one else S754_zero false)
  | JInt z =>
      let f := Float64.of_Z z in
      if Float64.is_infinite f then Err OverflowError else Ok f
  | JFloat f => Ok f
  | JStr s =>
      match parse_float rt s with
      | Some f => Ok f
      | None => Err ValueError
      end
  end.

(** ** The process state and the handlers' effects *)

(** One effect of a handler. *)
Inductive op : Type :=
| CacheExists (file : string)             (* [cache_file.exists()] *)
| CacheRead (file : string)               (* [open(cache_file, 'rb')] and read *)
| CacheCreate (file : string)             (* [open(cache_file, 'wb')] *)
| CacheWrite (file : string) (data : bytes) (* [f.write(data)] and close *)
| ModelLookup (name : string)             (* [loaded_models] at entry of [load_model] *)
| ModelExists (file : string)             (* [model_path.exists()] *)
| ModelLoad (file : string)               (* [PiperVoice.load(str(model_path))] *)
| ModelStore (name : string) (v : voice)  (* [loaded_models[name] = voice] *)
| Synth (v : voice) (text : string) (length_scale : option spec_float).

Definition op_ret (o : op) : Type :=
  match o with
  | CacheExists _ => bool
  | CacheRead _ => bytes
  | CacheCreate _ => unit
  | CacheWrite _ _ => unit
  | ModelLookup _ => option voice
  | ModelExists _ => bool
  | ModelLoad _ => voice
  | ModelStore _ _ => unit
  | Synth _ _ _ => bytes
  end.

Record world : Type := World {
  (** the files of [CACHE_DIR], by file name *)
  cache_dir : gmap string bytes;
  (** the file names present in [MODELS_DIR] *)
  models_dir : gset string;
  (** the module-level dict [loaded_models] *)
  loaded_models : gmap string voice;
  (** the effects the process has performed so far, oldest first *)
  trace : list op
}.

Definition log (o : op) (w : world) : world :=
  World (cache_dir w) (models_dir w) (loaded_models w) (trace w ++ [o]).

Definition is_synth (o : op) : bool :=
  match o with Synth _ _ _ => true | _ => false end.

Definition is_load (o : op) : bool :=
  match o with ModelLoad _ => true | _ => false end.

Definition is_cache_write (o : op) : bool :=
  match o with
  | CacheCreate _ | CacheWrite _ _ => true
  | _ => false
  end.


(** Model resolution: a call of [load_model] and what it does. *)
Definition is_model_work (o : op) : bool :=
  match o with
  | ModelLookup _ | ModelExists _ | ModelLoad _ | ModelStore _ _ => true
  | _ => false
  end.

Definition count (p : op -> bool) (t : list op) : nat :=
  length (List.filter p t).

Definition set_cache (c : gmap string bytes) (w : world) : world :=
  World c (models_dir w) (loaded_models w) (trace w).

Definition set_models (m : gmap string voice) (w : world) : world :=
  World (cache_dir w) (models_dir w) m (trace w).

(** The state after one operation: it is logged, and the two writes to
    the cache and the store into [loaded_models] take effect. *)
Definition op_effect (o : op) (w : world) : world :=
  log o
    match o with
    | CacheCreate f => set_cache (<[f := []]> (cache_dir w)) w
    | CacheWrite f d => set_cache (<[f := d]> (cache_dir w)) w
    | ModelStore n v => set_models (<[n := v]> (loaded_models w)) w
    | _ => w
    end.

Section Exec.
Context (rt : runtime).

(** What one operation returns or raises in state [w]. *)
Definition op_result (o : op) (w : world) : result (op_ret o) :=
  let stored (f : string) : option bytes := cache_dir w !! f in
  let loaded (n : string) : option voice := loaded_models w !! n in
  match o return result (op_ret o) with
  | CacheExists f =>
      Ok (match stored f with Some _ => true | None => false end)
  | CacheRead f =>
      match stored f with
      | Some b => Ok b
      | None => Err (FileNotFoundError f)
      end
  | CacheCreate f => Ok tt
  | CacheWrite f d => Ok tt
  | ModelLookup n => Ok (loaded n)
  | ModelExists f => Ok (bool_decide (f ∈ models_dir w))
  | ModelLoad f =>
      match piper_load rt f with
      | Some e => Err e
      | None => Ok (Voice (count is_load (trace w)) f)
      end
  | ModelStore n v => Ok tt
  | Synth v t ls => piper_synthesize rt (count is_synth (trace w)) v t ls
  end.

Definition exec_op (o : op) (w : world) : result (op_ret o) * world :=
  (op_result o w, op_effect o w).

End Exec.

(** ** Handler programs *)

Inductive prog (A : Type) : Type :=
| Ret (a : A)
| Raise (e : exn)
| Vis (o : op) (k : result (op_ret o) -> prog A).
Arguments Ret {A} a.
Arguments Raise {A} e.
Arguments Vis {A} o k.

Fixpoint bind {A B : Type} (p : prog A) (f : A -> prog B) : prog B :=
  match p with
  | Ret a => f a
  | Raise e => Raise e
  | Vis o k => Vis o (fun r => bind (k r) f)
  end.

(** [try: p  except Exception as e: h e] *)
Fixpoint catch {A : Type} (p : prog A) (h : exn -> prog A) : prog A :=
  match p with
  | Ret a => Ret a
  | Raise e => h e
  | Vis o k => Vis o (fun r => catch (k r) h)
  end.

Definition of_result {A : Type} (r : result A) : prog A :=
  match r with
  | Ok a => Ret a
  | Err e => Raise e
  end.

Definition call (o : op) : prog (op_ret o) := Vis o of_result.

Notation "'let*' x ':=' p 'in' q" := (bind p (fun x => q))
  (at level 10, x pattern, p at level 100, q at level 200).
Notation "p ';;' q" := (bind p (fun _ => q))
  (at level 100, q at level 200, right associativity).

Section Run.
Context (rt : runtime).

  (** A handler run from start to end with no other request in between. *)
Fixpoint run {A : Type} (p : prog A) (w : world) : result A * world :=
    match p with
    | Ret a => (Ok a, w)
    | Raise e => (Err e, w)
    | Vis o k => let '(r, w') := exec_op rt o w in run (k r) w'
    end.
End Run.

(** ** Requests and responses *)

(** The JSON body of [POST /synthesize].  A field is [None] when the key
    is absent; [text] and [model] are strings when present (for [text], a
    JSON null is [None] as well: both are false for [not text]). *)
Record body : Type := Body {
  b_text : option string;
  b_model : option string;
  b_speed : option json;
  b_use_cache : option json
}.

Inductive reply : Type :=
| Audio (audio : string) (duration_sec : spec_float)
        (model : option string) (cached : bool)
| ErrorText (msg : string)
| ErrorOf (e : exn).

Record response : Type := Response { status : Z; payload : reply }.

(** An exception that leaves the handler is answered by Flask with
    status 500. *)
Definition http_status (r : result response) : Z :=
  match r with
  | Ok resp => status resp
  | Err _ => 500
  end.

(** [frames / float(rate)] and [round(duration, 2)] on an opened WAV. *)
Definition duration_of (wav : wave_params) : result spec_float :=
  py_truediv (Float64.of_Z (nframes wav)) (Float64.of_Z (framerate wav)).

(** ** The pieces of [pathlib] behind [list_models]

    [glob('*.onnx')] keeps the entries of a directory whose name ends in
    [.onnx] (a leading dot is not special to [pathlib]); [stem] is the
    name without its last suffix, where a dot at the start or at the end
    of the name starts no suffix. *)

Module Pathlib.

(** [s.endswith(suf)] *)
Fixpoint ends_with (suf s : string) : bool :=
  if String.eqb s suf then true
  else
    match s with
    | EmptyString => false
    | String _ r => ends_with suf r
    end.

(** [c in s] for a character [c] *)
Fixpoint has_char (c : ascii) (s : string) : bool :=
  match s with
  | EmptyString => false
  | String a r => Ascii.eqb a c || has_char c r
  end.

(** [s.rfind(c)], [None] for -1 *)
Fixpoint rfind (c : ascii) (s : string) : option nat :=
  match s with
  | EmptyString => None
  | String a r =>
      match rfind c r with
      | Some i => Some (S i)
      | None => if Ascii.eqb a c then Some O else None
      end
  end.

(** [PurePath(name).stem] *)
Definition stem (name : string) : string :=
  match rfind "." name with
  | Some i =>
      if (0 <? i)%nat && (i <? String.length name - 1)%nat
      then String.substring 0 i name
      else name
  | None => name
  end.

End Pathlib.

(** ** workers/tts-server/server.py *)

Module TtsServer.
Section Handlers.
Context (rt : runtime).

Definition default_model : string := "en_US-lessac-medium".

Definition load_model (model_name : string) : prog voice :=
    let* cached := call (ModelLookup model_name) in
    match cached with
    | Some v => Ret v
    | None =>
        let model_path := model_name +:+ ".onnx" in
        let* present := call (ModelExists model_path) in
        if negb present then Raise (FileNotFoundError model_path)
        else
          let* v := call (ModelLoad model_path) in
          call (ModelStore model_name v) ;;
          Ret v
    end.

(** [f"{text}:{model_name}:{speed}"] *)
Definition key_material (text model_name : string) (speed : spec_float) : string :=
    text +:+ ":" +:+ model_name +:+ ":" +:+ float_repr rt speed.

Definition cache_key (text model_name : string) (speed : spec_float) : string :=
    md5_hex rt (key_material text model_name speed).

Definition cache_file (text model_name : string) (speed : spec_float) : string :=
    cache_key text model_name speed +:+ ".wav".

  (** [wave.open(f, 'rb')] for a [pathlib.Path] [f].  [wave] opens a
      [str] by name and takes any other argument for a file object that
      is open already; reading the header then calls [f.read(4)], which
      a path does not have. *)
Definition wave_open_path (file : string) : result wave_params :=
    Err AttributeError.

  (** The cached branch.  [cache_file] is [CACHE_DIR / f"{cache_key}.wav"]
      with [CACHE_DIR] a [Path], so [wave.open(cache_file, 'rb')] is
      given a path and not a file name. *)
Definition serve_cached (file model_name : string) : prog response :=
    let* audio_data := call (CacheRead file) in
    let* wav := of_result (wave_open_path file) in
    let* duration := of_result (duration_of wav) in
    Ret (Response 200
           (Audio (hex audio_data) (Float64.round2 duration) (Some model_name) true)).

  (** The body of the [try] block.  A [ZeroDivisionError] of [1.0/speed]
      is raised inside [with wave.open(wav_buffer, 'wb')] before any WAV
      parameter is set, so closing the writer raises [wave.Error] in its
      place. *)
Definition synthesize_fresh (file text model_name : string)
      (speed : spec_float) (use_cache : json) : prog response :=
    let* v := load_model model_name in
    let* length_scale :=
      catch (of_result (py_truediv Float64.one speed))
            (fun _ => Raise (WaveError "# channels not specified")) in
    let* audio_data := call (Synth v text (Some length_scale)) in
    (if truthy use_cache
     then call (CacheCreate file) ;; call (CacheWrite file audio_data)
     else Ret tt) ;;
    let* wav := of_result (wave_open rt audio_data) in
    let* duration := of_result (duration_of wav) in
    Ret (Response 200
           (Audio (hex audio_data) (Float64.round2 duration) (Some model_name) false)).

Definition synthesize (data : body) : prog response :=
    let text := b_text data in
    let model_name := default default_model (b_model data) in
    let* speed := of_result (py_float rt (default (JFloat Float64.one) (b_speed data))) in
    let use_cache := default (JBool true) (b_use_cache data) in
    if negb (str_truthy text)
    then Ret (Response 400 (ErrorText "Missing text parameter"))
    else
      let text := default "" text in
      let file := cache_file text model_name speed in
      let* hit := (if truthy use_cache then call (CacheExists file) else Ret false) in
      if hit then serve_cached file model_name
      else
        catch (synthesize_fresh file text model_name speed use_cache)
              (fun e => Ret (Response 500 (ErrorOf e))).

End Handlers.

(** [GET /models]: the stems of the [*.onnx] entries of [MODELS_DIR].
    The entries of [models_dir] without a slash are the directory's own
    entries; the order of [glob] is that of the operating system and is
    not modelled. *)
Definition list_models (w : world) : list string :=
  map Pathlib.stem
    (List.filter
       (fun f => negb (Pathlib.has_char "/" f) && Pathlib.ends_with ".onnx" f)
       (elements (models_dir w))).

(** [GET /health]: the status and [len(loaded_models)]. *)
Definition health (w : world) : string * nat :=
  ("ok", size (loaded_models w)).

End TtsServer.

(** ** workers/piper-tts/server.py *)

Module PiperTts.
Section Handlers.
Context (rt : runtime).
  (** The module-level [voice], loaded once when the process starts. *)
Context (voice : voice).

Definition cache_key (text : string) : string := sha256_hex rt text.

Definition cache_file (text : string) : string := cache_key text +:+ ".wav".

Definition serve_cached (file : string) : prog response :=
    let* audio_data := call (CacheRead file) in
    let* raw := call (CacheRead file) in
    let* wav := of_result (wave_open rt raw) in
    let* duration_sec := of_result (duration_of wav) in
    Ret (Response 200 (Audio (hex audio_data) (Float64.round2 duration_sec) None true)).

Definition synthesize (data : body) : prog response :=
    let text := default "" (b_text data) in
    let use_cache := default (JBool true) (b_use_cache data) in
    if negb (str_truthy (Some text))
    then Ret (Response 400 (ErrorText "Text is required"))
    else
      let file := cache_file text in
      let* hit := (if truthy use_cache then call (CacheExists file) else Ret false) in
      if hit then serve_cached file
      else
        let* audio_data := call (Synth voice text None) in
        let* wav := of_result (wave_open rt audio_data) in
        let* duration_sec := of_result (duration_of wav) in
        (if truthy use_cache
         then call (CacheCreate file) ;; call (CacheWrite file audio_data)
         else Ret tt) ;;
        Ret (Response 200
               (Audio (hex audio_data) (Float64.round2 duration_sec) None false)).

End Handlers.
End PiperTts.

(** ** Both workers at once *)

Inductive server : Type := Tts | Piper.

(** [handler srv rt v data] is the [synthesize] view function of worker
    [srv]; [v] is the start-up voice of piper-tts. *)
Definition handler (srv : server) (rt : runtime) (v : voice) (data : body) : prog response :=
  match srv with
  | Tts => TtsServer.synthesize rt data
  | Piper => PiperTts.synthesize rt v data
  end.

Definition use_cache_of (data : body) : bool :=
  truthy (default (JBool true) (b_use_cache data)).

(** The duration computed from audio bytes, as both workers do on both
    of their branches. *)
Definition probe (rt : runtime) (b : bytes) : result spec_float :=
  match wave_open rt b with
  | Ok wav =>
      match duration_of wav with
      | Ok d => Ok (Float64.round2 d)
      | Err e => Err e
      end
  | Err e => Err e
  end.

(** The state after a sequence of operations. *)
Definition replay (evs : list op) (w : world) : world :=
  fold_left (fun w o => op_effect o w) evs w.

(** The effects a run has added to the trace. *)
Definition new_events (w w' : world) : list op :=
  drop (length (trace w)) (trace w').

(** The fields of a request as the tts-server reads them. *)
Definition model_of (data : body) : string :=
  default TtsServer.default_model (b_model data).

Definition speed_field (data : body) : json :=
  default (JFloat Float64.one) (b_speed data).

Definition text_of (data : body) : string := default "" (b_text data).

(** The cache file a request is looked up and stored under, when its
    speed is a float. *)
Definition cache_file_of (srv : server) (rt : runtime) (data : body) : option string :=
  match srv with
  | Tts =>
      match py_float rt (speed_field data) with
      | Ok speed => Some (TtsServer.cache_file rt (text_of data) (model_of data) speed)
      | Err _ => None
      end
  | Piper => Some (PiperTts.cache_file rt (text_of data))
  end.

(** ** Properties of program trees *)

(** Every operation the program can issue satisfies [P]. *)
Inductive issues_only {A : Type} (P : op -> Prop) : prog A -> Prop :=
| only_ret (a : A) : issues_only P (Ret a)
| only_raise (e : exn) : issues_only P (Raise e)
| only_vis (o : op) (k : result (op_ret o) -> prog A) :
    P o -> (forall r, issues_only P (k r)) -> issues_only P (Vis o k).

(** The program calls the backend at most [n] times on every path. *)
Inductive synth_budget {A : Type} : nat -> prog A -> Prop :=
| budget_ret (n : nat) (a : A) : synth_budget n (Ret a)
| budget_raise (n : nat) (e : exn) : synth_budget n (Raise e)
| budget_synth (n : nat) (o : op) (k : result (op_ret o) -> prog A) :
    is_synth o = true ->
    (forall r, synth_budget n (k r)) -> synth_budget (S n) (Vis o k)
| budget_other (n : nat) (o : op) (k : result (op_ret o) -> prog A) :
    is_synth o = false ->
    (forall r, synth_budget n (k r)) -> synth_budget n (Vis o k).

(** ** Requests served one after another *)

Fixpoint serve (rt : runtime) (ps : list (prog response)) (w : world)
  : list (result response) * world :=
  match ps with
  | [] => ([], w)
  | p :: ps' =>
      let '(r, w1) := run rt p w in
      let '(rs, w2) := serve rt ps' w1 in
      (r :: rs, w2)
  end.

(** [later rt w w']: the process gets from [w] to [w'] by calls of
    [load_model] and requests to the tts-server. *)
Inductive later (rt : runtime) : world -> world -> Prop :=
| later_now (w : world) : later rt w w
| later_resolve (w w1 w2 : world) (name : string) (r : result voice) :
    run rt (TtsServer.load_model name) w = (r, w1) ->
    later rt w1 w2 -> later rt w w2
| later_request (w w1 w2 : world) (data : body) (r : result response) :
    run rt (TtsServer.synthesize rt data) w = (r, w1) ->
    later rt w1 w2 -> later rt w w2.

(** ** Requests served by threads

    Flask serves each request on a thread of its own.  The threads of a
    pool interleave between any two effects: a step runs one operation of
    one thread. *)

Definition pool : Type := list (prog response).

Inductive pool_step (rt : runtime) : world * pool -> world * pool -> Prop :=
| pool_step_at (i : nat) (o : op) (k : result (op_ret o) -> prog response)
    (w : world) (ps : pool) :
    ps !! i = Some (Vis o k) ->
    pool_step rt (w, ps) (op_effect o w, <[i := k (op_result rt o w)]> ps).

(** One step of thread [i], if it has one left. *)
Definition step_thread (rt : runtime) (c : world * pool) (i : nat) : world * pool :=
  match c.2 !! i with
  | Some (Vis o k) => (op_effect o c.1, <[i := k (op_result rt o c.1)]> c.2)
  | _ => c
  end.

(** The threads take steps in the order given by [sched]. *)
Definition schedule (rt : runtime) (sched : list nat) (c : world * pool) : world * pool :=
  fold_left (step_thread rt) sched c.

(** The answer of a thread that has finished. *)
Definition answer (p : prog response) : option (result response) :=
  match p with
  | Ret a => Some (Ok a)
  | Raise e => Some (Err e)
  | Vis _ _ => None
  end.

(** ** What the backend returned to a run

    The result of the first backend call among the effects that a run
    from [w] to [w'] has added, if there is one. *)
Definition backend_result (rt : runtime) (w w' : world) : option (result bytes) :=
  match List.filter is_synth (new_events w w') with
  | Synth v t ls :: _ => Some (piper_synthesize rt (count is_synth (trace w)) v t ls)
  | _ => None
  end.




(** [x] is the quotient [n / d] up to a relative error of [2^-50]. *)
Definition close_to_quotient (x : spec_float) (n d : Z) : bool :=
  match Float64.to_frac x with
  | Some (p, q) => Z.abs (p * d - n * q) * 2 ^ 50 <=? Z.abs (n * q)
  | None => false
  end.

(** ** A canonical WAV container

    The 44-byte RIFF/WAVE header followed by the samples, as the [wave]
    writer emits it, and the reader of that layout: the [fmt ] chunk of
    16 bytes at offset 12 and the [data] chunk at offset 36.  It checks
    what [wave.open] checks, in its order, and reads the two header
    fields the handlers use; a file that is cut short inside a chunk
    header or holds other chunks is answered as one without the chunk.
    It serves as [wave_open] when the handlers are run on examples. *)

Module Wav.

#[global] Instance byte_eq_dec : EqDecision Byte.byte := Byte.byte_eq_dec.

Definition byte_of_Z (z : Z) : Byte.byte :=
  default Byte.x00 (Byte.of_N (Z.to_N (z mod 256))).

(** Little-endian encoding on [n] bytes and decoding. *)
Fixpoint enc (n : nat) (z : Z) : bytes :=
  match n with
  | O => []
  | S n' => byte_of_Z z :: enc n' (z / 256)
  end.

Fixpoint dec (b : bytes) : Z :=
  match b with
  | [] => 0
  | x :: r => Z.of_N (Byte.to_N x) + 256 * dec r
  end.

Definition tag (s : string) : bytes := list_byte_of_string s.

Definition field (off len : nat) (b : bytes) : bytes := take len (drop off b).

(** Mono, 16-bit PCM: [n] silent frames at [rate] frames per second. *)
Definition pcm44 (rate n : Z) : bytes :=
  (tag "RIFF" ++ enc 4 (36 + 2 * n) ++ tag "WAVE" ++
   tag "fmt " ++ enc 4 16 ++ enc 2 1 ++ enc 2 1 ++ enc 4 rate ++
   enc 4 (2 * rate) ++ enc 2 2 ++ enc 2 16 ++
   tag "data" ++ enc 4 (2 * n) ++ replicate (Z.to_nat (2 * n)) Byte.x00)%list.

Definition read44 (b : bytes) : result wave_params :=
  (* the RIFF chunk header: name and size *)
  if (length b <? 8)%nat then Err EOFError
  else if negb (bool_decide (field 0 4 b = tag "RIFF"))
  then Err (WaveError "file does not start with RIFF id")
  else if negb (bool_decide (field 8 4 b = tag "WAVE"))
  then Err (WaveError "not a WAVE file")
  (* the header of the first chunk *)
  else if (length b <? 20)%nat || negb (bool_decide (field 12 4 b = tag "fmt "))
  then Err (WaveError "fmt chunk and/or data chunk missing")
  (* format tag, channels, frame rate, byte rate, block align *)
  else if (length b <? 34)%nat then Err EOFError
  else if negb (dec (field 20 2 b) =? 1)
  then Err (WaveError ("unknown format: " +:+
                       NilZero.string_of_uint (N.to_uint (Z.to_N (dec (field 20 2 b))))))
  (* bits per sample *)
  else if (length b <? 36)%nat then Err EOFError
  else
    let nchannels := dec (field 22 2 b) in
    let sampwidth := (dec (field 34 2 b) + 7) / 8 in
    if sampwidth =? 0 then Err (WaveError "bad sample width")
    else if nchannels =? 0 then Err (WaveError "bad # of channels")
    (* the header of the second chunk *)
    else if (length b <? 44)%nat || negb (bool_decide (field 36 4 b = tag "data"))
    then Err (WaveError "fmt chunk and/or data chunk missing")
    else Ok (WaveParams (dec (field 40 4 b) / (nchannels * sampwidth))
                        (dec (field 24 4 b))).

End Wav.

(** ** A runtime for examples

    Digests are replaced by tagged copies of their input, floats are
    formatted and parsed on three values only, every model file loads and
    the backend emits [50 * len(text)] silent frames at 22050 Hz. *)

Definition two : spec_float := Float64.of_Z 2.

Definition toy_repr (x : spec_float) : string :=
  if bool_decide (x = Float64.one) then "1.0"
  else if bool_decide (x = two) then "2.0"
  else if bool_decide (x = S754_zero false) then "0.0"
  else "nan".

Definition toy_parse (s : string) : option spec_float :=
  if String.eqb s "1.0" then Some Float64.one
  else if String.eqb s "2.0" then Some two
  else if String.eqb s "0.0" then Some (S754_zero false)
  else None.

Definition toy_rt : runtime :=
  Runtime (fun s => "md5-" +:+ s) (fun s => "sha256-" +:+ s)
          toy_repr toy_parse Wav.read44 (fun _ => None)
          (fun _ _ text _ => Ok (Wav.pcm44 22050 (50 * Z.of_nat (String.length text)))).

Definition lessac : voice := Voice 0 "models/en_US-lessac-medium.onnx".

(** A fresh process: empty cache, one model file, nothing loaded. *)
Definition cold : world :=
  World ∅ {[ "en_US-lessac-medium.onnx" ]} ∅ [].

Definition hello : body := Body (Some "Hi") None None None.

(** The same text at twice the speed, and at speed zero. *)
Definition hello_fast : body := Body (Some "Hi") None (Some (JFloat two)) None.

Definition hello_stopped : body := Body (Some "Hi") None (Some (JInt 0)) None.

Definition hello_uncached : body := Body (Some "Hi") None None (Some (JBool false)).



(** What a response reports. *)
Definition reported_duration (r : result response) : option spec_float :=
  match r with
  | Ok (Response _ (Audio _ d _ _)) => Some d
  | _ => None
  end.

Definition reported_audio (r : result response) : option string :=
  match r with
  | Ok (Response _ (Audio a _ _ _)) => Some a
  | _ => None
  end.

Definition reported_cached (r : result response) : option bool :=
  match r with
  | Ok (Response _ (Audio _ _ _ c)) => Some c
  | _ => None
  end.

(** Two threads serve the same request on a fresh process; both look
    the cache up before either has written to it. *)
Definition racing : world * pool :=
  schedule toy_rt [0; 1; 0; 0; 0; 0; 0; 0; 0; 1; 1; 1; 1]%nat
    (cold, [handler Tts toy_rt lessac hello; handler Tts toy_rt lessac hello]).

(** The same runtime with a backend that always raises. *)
Definition broken_rt : runtime :=
  Runtime (md5_hex toy_rt) (sha256_hex toy_rt) (float_repr toy_rt)
          (parse_float toy_rt) (wave_open toy_rt) (piper_load toy_rt)
          (fun _ _ _ _ => Err (LibraryError 1)).

(** ** Vocabulary of the properties *)

(** Two request tuples (text, model, speed) differ in exactly one field;
    for the speed, in its formatted value. *)
Inductive differ_in_one (rt : runtime) :
  string * string * spec_float -> string * string * spec_float -> Prop :=
| differ_text (t t' m : string) (s : spec_float) :
    t <> t' -> differ_in_one rt (t, m, s) (t', m, s)
| differ_model (t m m' : string) (s : spec_float) :
    m <> m' -> differ_in_one rt (t, m, s) (t, m', s)
| differ_speed (t m : string) (s s' : spec_float) :
    float_repr rt s <> float_repr rt s' ->
    differ_in_one rt (t, m, s) (t, m, s').

(** A backend call made for request [data]: on the request's text, and
    in the tts-server with [length_scale = 1.0 / speed] for a non-zero
    speed, in piper-tts without a length scale. *)
Definition synth_call_ok (srv : server) (rt : runtime) (data : body) (o : op) : Prop :=
  match o with
  | Synth _ t ls =>
      t = text_of data /\
      match srv with
      | Tts =>
          exists speed, py_float rt (speed_field data) = Ok speed /\
                        Float64.is_zero speed = false /\
                        ls = Some (Float64.fdiv Float64.one speed)
      | Piper => ls = None
      end
  | _ => True
  end.

(** The [model] field of an audio response. *)
Definition model_reported (srv : server) (data : body) : option string :=
  match srv with
  | Tts => Some (model_of data)
  | Piper => None
  end.


(** [loaded_models[name] = v] for this [name]: the registration that
    follows a successful [PiperVoice.load]. *)
Definition is_store_of (name : string) (o : op) : bool :=
  match o with
  | ModelStore n _ => bool_decide (n = name)
  | _ => false
  end.

(** Every model name has been loaded and registered at most once, and
    not at all if it is not in [loaded_models]. *)
Definition loaded_once (w : world) : Prop :=
  forall name,
    (count (is_store_of name) (trace w) <= 1)%nat /\
    (loaded_models w !! name = None ->
     count (is_store_of name) (trace w) = 0%nat).

(** [PiperVoice.load] of the file of model [name]. *)
Definition is_load_of (name : string) (o : op) : bool :=
  match o with
  | ModelLoad f => bool_decide (f = name +:+ ".onnx")
  | _ => false
  end.

(** What a request answers when it finds its cache file, holding the
    bytes [b]: piper-tts the stored audio with its duration, or the
    exception of the duration computation; the tts-server the
    [AttributeError] of [wave.open] on a path. *)
Definition hit_answer (srv : server) (rt : runtime) (b : bytes) : result response :=
  match srv with
  | Tts => Err AttributeError
  | Piper =>
      match probe rt b with
      | Ok dur => Ok (Response 200 (Audio (hex b) dur None true))
      | Err e => Err e
      end
  end.

(** The effects of a request that finds its cache file [f]: the test,
    the read of the audio and, in piper-tts, the read by [wave.open]. *)
Definition hit_events (srv : server) (f : string) : list op :=
  match srv with
  | Tts => [CacheExists f; CacheRead f]
  | Piper => [CacheExists f; CacheRead f; CacheRead f]
  end.

(** Two threads of piper-tts serve the same request; the second looks
    the cache up after the first has created the file and before it has
    written the audio into it. *)
Definition torn : world * pool :=
  schedule toy_rt [0; 0; 0; 1; 1; 1]%nat
    (cold, [handler Piper toy_rt lessac hello; handler Piper toy_rt lessac hello]).

(** The toy runtime with model files that [PiperVoice.load] cannot
    load. *)
Definition unloadable_rt : runtime :=
  Runtime (md5_hex toy_rt) (sha256_hex toy_rt) (float_repr toy_rt)
          (parse_float toy_rt) (wave_open toy_rt)
          (fun _ => Some (LibraryError 2)) (piper_synthesize toy_rt).

(** ** Vocabulary of the properties of the cache, the responses and the
    model table *)

(** A registration [loaded_models[name] = voice]. *)
Definition is_store (o : op) : bool :=
  match o with ModelStore _ _ => true | _ => false end.

(** A process that has just started: nothing loaded, nothing done. *)
Definition started (w : world) : Prop :=
  loaded_models w = ∅ /\ trace w = [].


(** The request fails the validation of worker [srv]: its text is
    missing or empty, and in the tts-server its speed was a float (the
    coercion comes first there). *)
Definition rejected (srv : server) (rt : runtime) (data : body) : Prop :=
  str_truthy (b_text data) = false /\
  (srv = Tts -> exists speed, py_float rt (speed_field data) = Ok speed).


(** The request misses the cache in state [w] and gets to the backend
    without loading a model: its text is not empty, it does not use the
    cache or its entry is absent, and in the tts-server its speed is a
    non-zero float and its model is in [loaded_models]. *)
Definition ready_to_synthesize (srv : server) (rt : runtime) (data : body) (w : world) : Prop :=
  str_truthy (b_text data) = true /\
  (use_cache_of data = false \/
   exists f, cache_file_of srv rt data = Some f /\ cache_dir w !! f = None) /\
  match srv with
  | Tts =>
      exists speed v,
        py_float rt (speed_field data) = Ok speed /\
        Float64.is_zero speed = false /\
        loaded_models w !! model_of data = Some v
  | Piper => True
  end.

(** The toy runtime with a backend whose output is not a WAV file, and
    the tts-server after it has served [hello] once with it. *)
Definition mute_rt : runtime :=
  Runtime (md5_hex toy_rt) (sha256_hex toy_rt) (float_repr toy_rt)
          (parse_float toy_rt) (wave_open toy_rt) (piper_load toy_rt)
          (fun _ _ _ _ => Ok []).

Definition poisoned : world :=
  snd (run mute_rt (handler Tts mute_rt lessac hello) cold).

(** ** scripts/analyze-audio.py *)

Module AnalyzeAudio.

Definition newline : ascii := ascii_of_nat 10.

(** [pat in s] *)
Fixpoint contains (pat s : string) : bool :=
  String.prefix pat s ||
  match s with
  | EmptyString => false
  | String _ r => contains pat r
  end.

(** [s.split('\n')] *)
Fixpoint split_lines (s : string) : list string :=
  match s with
  | EmptyString => [""]
  | String c r =>
      if Ascii.eqb c newline then "" :: split_lines r
      else
        match split_lines r with
        | l :: ls => String c l :: ls
        | [] => [String c ""]
        end
  end.

(** ['\n'.join(lines)] *)
Definition join_lines (lines : list string) : string :=
  String.concat (String newline "") lines.

(** The inner loop: the lines from line [i] on, up to and including the
    first that holds a closing brace, or all of them if none does. *)
Fixpoint json_block (lines : list string) : list string :=
  match lines with
  | [] => []
  | l :: rest => if contains "}" l then [l] else l :: json_block rest
  end.

(** The dict that [analyze_lufs] returns. *)
Record loudness : Type := Loudness {
  integrated : spec_float;
  true_peak : spec_float;
  lra : spec_float;
  threshold : spec_float
}.

(** The first character of a text after JSON white space. *)
Fixpoint first_nonblank (s : string) : option ascii :=
  match s with
  | EmptyString => None
  | String c r =>
      if Ascii.eqb c " " || Ascii.eqb c (ascii_of_nat 9)
         || Ascii.eqb c newline || Ascii.eqb c (ascii_of_nat 13)
      then first_nonblank r
      else Some c
  end.

Section Analyze.
Context (rt : runtime).
(** [json.loads(s)] when it returns a dict: its members ([None] when it
    raises or returns another value, on which [.get] raises).  A member
    that is an array or an object is read as [JNull]: [float] raises
    [TypeError] on the three alike. *)
Context (json_loads : string -> option (gmap string json)).

(** The body of the [try] block; [None] when it raises. *)
Definition read_loudness (json_str : string) : option loudness :=
  match json_loads json_str with
  | None => None
  | Some data =>
      let get (k : string) : result spec_float :=
        py_float rt (default (JInt 0) (data !! k)) in
      match get "input_i", get "input_tp", get "input_lra", get "input_thresh" with
      | Ok i, Ok tp, Ok l, Ok th => Some (Loudness i tp l th)
      | _, _, _, _ => None
      end
  end.

(** The loop over the lines, from line [i] on. *)
Fixpoint scan (lines : list string) : option loudness :=
  match lines with
  | [] => None
  | line :: rest =>
      if contains "input_i" line
      then
        match read_loudness (join_lines (json_block (line :: rest))) with
        | Some m => Some m
        | None => scan rest
        end
      else scan rest
  end.

(** [analyze_lufs] on the text that [ffmpeg] wrote to its standard
    error. *)
Definition analyze_lufs (output : string) : option loudness :=
  if contains "input_i" output then scan (split_lines output) else None.

End Analyze.
End AnalyzeAudio.


(** ** Examples of [ffmpeg] reports *)

Definition quoted (s : string) : string :=
  String (ascii_of_nat 34) s +:+ String (ascii_of_nat 34) "".

Definition nl : string := String AnalyzeAudio.newline "".

(** A decoder that takes any text that starts with an opening brace for
    the object with the one member [input_i] of value ["2.0"]. *)
Definition toy_json_loads (s : string) : option (gmap string json) :=
  match AnalyzeAudio.first_nonblank s with
  | Some c => if Ascii.eqb c "{" then Some {[ "input_i" := JStr "2.0" ]} else None
  | None => None
  end.

(** The report of the [loudnorm] filter as [ffmpeg] lays it out, the
    braces on lines of their own, and the same object on one line. *)
Definition ffmpeg_report : string :=
  "[Parsed_loudnorm_0 @ 0x55d0] " +:+ nl +:+
  "{" +:+ nl +:+
  String (ascii_of_nat 9) (quoted "input_i" +:+ " : " +:+ quoted "2.0" +:+ ",") +:+ nl +:+
  String (ascii_of_nat 9) (quoted "input_tp" +:+ " : " +:+ quoted "1.0") +:+ nl +:+
  "}" +:+ nl.

Definition one_line_report : string :=
  "frame=    1" +:+ nl +:+
  "{" +:+ quoted "input_i" +:+ " : " +:+ quoted "2.0" +:+ "}" +:+ nl.

(** ** Model loading by threads *)

(** The program performs at most [n] operations that satisfy [p], on
    every path. *)
Inductive op_budget {A : Type} (p : op -> bool) : nat -> prog A -> Prop :=
| op_budget_ret (n : nat) (a : A) : op_budget p n (Ret a)
| op_budget_raise (n : nat) (e : exn) : op_budget p n (Raise e)
| op_budget_hit (n : nat) (o : op) (k : result (op_ret o) -> prog A) :
    p o = true ->
    (forall r, op_budget p n (k r)) -> op_budget p (S n) (Vis o k)
| op_budget_other (n : nat) (o : op) (k : result (op_ret o) -> prog A) :
    p o = false ->
    (forall r, op_budget p n (k r)) -> op_budget p n (Vis o k).

(** The calls of [PiperVoice.load] that a request to worker [srv] may
    make while it is served: piper-tts loads its voice at start-up. *)
Definition loads_of (srv : server) : nat :=
  match srv with Tts => 1 | Piper => 0 end.

(** Two threads serve the same request on a fresh process; both find the
    model missing from [loaded_models] before either has stored it. *)
Definition racing_loads : world * pool :=
  schedule toy_rt [0; 0; 1; 1; 0; 0; 0; 1; 1; 1]%nat
    (cold, [handler Tts toy_rt lessac hello_uncached;
            handler Tts toy_rt lessac hello_uncached]).

(** * Properties *)

(** ** Running programs *)

Lemma run_bind {A B : Type} rt (p : prog A) (f : A -> prog B) w :
  run rt (bind p f) w =
  match run rt p w with
  | (Ok a, w') => run rt (f a) w'
  | (Err e, w') => (Err e, w')
  end.
Proof.
  revert w. induction p as [a|e|o k IH]; intros w; simpl; try reflexivity.
  apply IH.
Qed.

Lemma trace_effect o w : trace (op_effect o w) = trace w ++ [o].
Proof. destruct o; reflexivity. Qed.


Lemma cache_dir_effect o w :
  is_cache_write o = false -> cache_dir (op_effect o w) = cache_dir w.
Proof. destruct o; simpl; intros; done. Qed.

Lemma effect_start w o : op_effect o w = replay [o] w.
Proof. reflexivity. Qed.

Lemma effect_replay evs w o : op_effect o (replay evs w) = replay (evs ++ [o]) w.
Proof. unfold replay. by rewrite fold_left_app. Qed.

Lemma trace_replay evs w : trace (replay evs w) = trace w ++ evs.
Proof.
  revert w. induction evs as [|o evs IH]; intros w; simpl.
  - by rewrite app_nil_r.
  - rewrite IH, trace_effect, <- app_assoc. reflexivity.
Qed.

Lemma new_events_replay evs w : new_events w (replay evs w) = evs.
Proof. unfold new_events. rewrite trace_replay. apply drop_app_length. Qed.

Lemma new_events_same w : new_events w w = [].
Proof. apply (new_events_replay [] w). Qed.

Lemma cache_dir_replay evs w :
  Forall (fun o => is_cache_write o = false) evs ->
  cache_dir (replay evs w) = cache_dir w.
Proof.
  intros H. revert w. induction H as [|o evs Ho _ IH]; intros w; simpl; [done|].
  rewrite IH. by apply cache_dir_effect.
Qed.

Lemma run_replay {A : Type} rt (p : prog A) w r w' :
  run rt p w = (r, w') -> exists evs, w' = replay evs w.
Proof.
  revert w. induction p as [a|e|o k IH]; intros w; simpl.
  - intros [= <- <-]. by exists [].
  - intros [= <- <-]. by exists [].
  - intros H. apply IH in H as [evs ->]. by exists (o :: evs).
Qed.


Lemma count_app p l1 l2 : count p (l1 ++ l2) = (count p l1 + count p l2)%nat.
Proof. unfold count. by rewrite List.filter_app, length_app. Qed.

(** ** What a program can issue *)

Lemma issues_only_run {A : Type} rt P (p : prog A) w r w' :
  issues_only P p -> run rt p w = (r, w') -> Forall P (new_events w w').
Proof.
  intros Hp. revert w. induction Hp as [a|e|o k Ho Hk IH]; intros w; simpl.
  - intros [= <- <-]. rewrite new_events_same. constructor.
  - intros [= <- <-]. rewrite new_events_same. constructor.
  - intros H. pose proof H as H2. apply IH in H.
    apply run_replay in H2 as [evs ->]. rewrite new_events_replay in H.
    change (replay evs (op_effect o w)) with (replay (o :: evs) w).
    rewrite new_events_replay. by constructor.
Qed.

Lemma issues_only_bind {A B : Type} P (p : prog A) (f : A -> prog B) :
  issues_only P p -> (forall a, issues_only P (f a)) -> issues_only P (bind p f).
Proof. intros Hp Hf. induction Hp; simpl; try constructor; auto. Qed.

Lemma issues_only_catch {A : Type} P (p : prog A) h :
  issues_only P p -> (forall e, issues_only P (h e)) -> issues_only P (catch p h).
Proof. intros Hp Hf. induction Hp; simpl; try constructor; auto. Qed.

Lemma issues_only_of_result {A : Type} P (r : result A) : issues_only P (of_result r).
Proof. destruct r; constructor. Qed.

Lemma issues_only_call P o : P o -> issues_only (A := op_ret o) P (call o).
Proof. intros. constructor; auto. intros; apply issues_only_of_result. Qed.

Ltac only_tac :=
  repeat first
    [ apply issues_only_bind; [|intros ?]
    | apply issues_only_catch; [|intros ?]
    | apply issues_only_of_result
    | apply issues_only_call; try done
    | apply only_ret | apply only_raise
    | apply only_vis; [try done | intros ?]
    | match goal with |- issues_only _ (match ?x with _ => _ end) => destruct x end ].

(** Symbolic execution of a handler: the run is unfolded operation by
    operation and every test it meets is split. *)
Ltac exec_step :=
  cbn [run bind catch of_result call exec_op op_result op_effect
       cache_dir models_dir loaded_models trace log set_cache set_models
       negb fst snd] in *.

Ltac split_on x :=
  lazymatch x with
  | context [match _ with _ => _ end] => fail
  | _ => let E := fresh "E" in destruct x eqn:E
  end.

(** A test whose outcome an earlier test has fixed. *)
Ltac split_known H y :=
  let E := fresh "E" in
  destruct y eqn:E;
  first
    [ let T := fresh "T" in
      pose proof (eq_trans (eq_sym H) E) as T;
      first [ discriminate T | injection T as -> | injection T as <- | clear T ]
    | discriminate H | injection H as -> | injection H as <- | idtac ].

Ltac exec :=
  repeat (exec_step; try match goal with
          | |- context [match ?y with _ => _ end] =>
              match goal with
              | H : ?x = _ |- _ => unify x y; split_known H y
              end
          | |- context [negb ?x] => split_on x
          | |- context [match ?x with _ => _ end] => split_on x
          | |- context [of_result ?x] => split_on x
          end).


Ltac unfold_handlers :=
  unfold handler, TtsServer.synthesize, TtsServer.synthesize_fresh,
    TtsServer.serve_cached, TtsServer.wave_open_path, TtsServer.load_model,
    PiperTts.synthesize, PiperTts.serve_cached in *.

(** Worlds reached by a run are put in the form [replay evs w]. *)
Ltac norm_world w :=
  rewrite ?(effect_start w); rewrite ?effect_replay; cbn [app].

(** ** Validation and the order of the first statements *)




(** C6 as stated fails: a request with speed 0 is not answered 400.  The
    tts-server looks the cache up, resolves and loads the model, and
    answers 500 when [1.0/speed] raises. *)
Lemma zero_speed_is_not_rejected :
  fst (run toy_rt (handler Tts toy_rt lessac hello_stopped) cold)
  = Ok (Response 500 (ErrorOf (WaveError "# channels not specified"))) /\
  trace (snd (run toy_rt (handler Tts toy_rt lessac hello_stopped) cold))
  = [CacheExists "md5-Hi:en_US-lessac-medium:0.0.wav";
     ModelLookup "en_US-lessac-medium";
     ModelExists "en_US-lessac-medium.onnx";
     ModelLoad "en_US-lessac-medium.onnx";
     ModelStore "en_US-lessac-medium" (Voice 0 "en_US-lessac-medium.onnx")].
Proof. split; vm_compute; reflexivity. Qed.

(** C6, amended.  A request whose text is missing or empty (and, in the
    tts-server, whose speed [float] accepts) is answered 400 at once: the
    handler is the constant response, it performs no effect, so the state
    and its trace are unchanged.  The speed is not validated. *)
Theorem empty_text_rejected_first srv rt v (data : body) (w : world) :
  str_truthy (b_text data) = false ->
  (srv = Tts -> exists speed, py_float rt (speed_field data) = Ok speed) ->
  exists msg,
    handler srv rt v data = Ret (Response 400 (ErrorText msg)) /\
    run rt (handler srv rt v data) w = (Ok (Response 400 (ErrorText msg)), w).
Proof.
  intros Ht Hs. destruct srv.
  - destruct Hs as [speed Hs]; [done|].
    unfold handler, TtsServer.synthesize. unfold speed_field in Hs.
    rewrite Hs, Ht. eexists. split; reflexivity.
  - unfold handler, PiperTts.synthesize.
    destruct (b_text data) as [t|]; simpl in *; [rewrite Ht|];
      eexists; split; reflexivity.
Qed.

Lemma empty_text_rejected_first_witness :
  exists msg,
    handler Tts toy_rt lessac (Body (Some "") None None None)
    = Ret (Response 400 (ErrorText msg)) /\
    run toy_rt (handler Tts toy_rt lessac (Body (Some "") None None None)) cold
    = (Ok (Response 400 (ErrorText msg)), cold).
Proof.
  apply (empty_text_rejected_first Tts toy_rt lessac
           (Body (Some "") None None None) cold).
  - reflexivity.
  - intros _. exists Float64.one. reflexivity.
Defined.

(** ** Requests with [use_cache] false *)







(** ** The cache key *)

Lemma append_length a b :
  String.length (a +:+ b) = (String.length a + String.length b)%nat.
Proof. induction a as [|c a IH]; simpl; [done|]. by rewrite IH. Qed.

Lemma append_inv_head t a b : t +:+ a = t +:+ b -> a = b.
Proof. induction t as [|c t IH]; simpl; [done|]. intros [= H]. auto. Qed.

Lemma append_inv_tail t a b : a +:+ t = b +:+ t -> a = b.
Proof.
  revert b. induction a as [|c a IH]; intros [|c' b]; simpl; try done.
  - intros H. apply (f_equal String.length) in H.
    rewrite !append_length in H. simpl in H. lia.
  - intros H. apply (f_equal String.length) in H.
    rewrite !append_length in H. simpl in H. lia.
  - intros [= -> H]. f_equal. auto.
Qed.

Lemma key_material_differs rt t m s t' m' s' :
  differ_in_one rt (t, m, s) (t', m', s') ->
  TtsServer.key_material rt t m s <> TtsServer.key_material rt t' m' s'.
Proof.
  unfold TtsServer.key_material.
  intros Hd; inversion Hd; subst; intros Hk.
  - by apply append_inv_tail in Hk.
  - apply append_inv_head, append_inv_head, append_inv_tail in Hk. done.
  - by do 4 apply append_inv_head in Hk.
Qed.

Lemma same_fields_same_file srv rt d d' :
  text_of d = text_of d' ->
  model_of d = model_of d' ->
  py_float rt (speed_field d) = py_float rt (speed_field d') ->
  cache_file_of srv rt d = cache_file_of srv rt d'.
Proof.
  intros Ht Hm Hs. destruct srv; simpl; [rewrite Hs|]; rewrite ?Ht, ?Hm;
    reflexivity.
Qed.

(** In the tts-server the three fields are joined with a colon that the
    fields may contain themselves: two requests that differ in text and
    in model can have the same key material, hence the same key for every
    digest function. *)
Lemma tts_key_separator_collision rt s :
  TtsServer.cache_key rt "a:b" "c" s = TtsServer.cache_key rt "a" "b:c" s.
Proof. reflexivity. Qed.

(** C1 as stated fails: piper-tts derives the key from the text alone,
    so two requests that differ in speed get the same cache file. *)
Lemma piper_key_ignores_speed :
  cache_file_of Piper toy_rt hello = Some "sha256-Hi.wav" /\
  cache_file_of Piper toy_rt hello_fast = Some "sha256-Hi.wav" /\
  py_float toy_rt (speed_field hello) = Ok Float64.one /\
  py_float toy_rt (speed_field hello_fast) = Ok two /\
  Float64.one <> two /\
  (forall rt, cache_file_of Piper rt hello = cache_file_of Piper rt hello_fast).
Proof. repeat split; try reflexivity. vm_compute. discriminate. Qed.

(** C1, amended.  The cache file is a function of the fields a worker
    reads: requests with the same text, the same model and the same speed
    as a float get the same file.  In the tts-server the key is the MD5
    digest of [text:model:speed], and two requests that differ in exactly
    one of the three fields give the digest different inputs; in piper-tts
    the key is the SHA-256 digest of the text and of nothing else. *)
Theorem cache_key_of_request rt :
  (forall srv d d',
     text_of d = text_of d' ->
     model_of d = model_of d' ->
     py_float rt (speed_field d) = py_float rt (speed_field d') ->
     cache_file_of srv rt d = cache_file_of srv rt d') /\
  (forall t m s t' m' s',
     differ_in_one rt (t, m, s) (t', m', s') ->
     TtsServer.cache_key rt t m s = md5_hex rt (TtsServer.key_material rt t m s) /\
     TtsServer.cache_key rt t' m' s' = md5_hex rt (TtsServer.key_material rt t' m' s') /\
     TtsServer.key_material rt t m s <> TtsServer.key_material rt t' m' s') /\
  (forall d d',
     text_of d = text_of d' ->
     cache_file_of Piper rt d = cache_file_of Piper rt d') /\
  (forall t, PiperTts.cache_key rt t = sha256_hex rt t).
Proof.
  split; [intros; by apply same_fields_same_file|].
  split; [intros; split; [done|]; split; [done|]; by apply key_material_differs|].
  split; [|done].
  intros d d' Ht. simpl. by rewrite Ht.
Qed.

Lemma cache_key_of_request_witness :
  cache_file_of Tts toy_rt hello
  = cache_file_of Tts toy_rt
      (Body (Some "Hi") (Some "en_US-lessac-medium") (Some (JInt 1)) None) /\
  TtsServer.key_material toy_rt "Hi" "a" Float64.one
  <> TtsServer.key_material toy_rt "Hi" "a" two /\
  cache_file_of Piper toy_rt hello = cache_file_of Piper toy_rt hello_fast.
Proof.
  destruct (cache_key_of_request toy_rt) as (Hsame & Hdiff & Hpiper & _).
  split; [apply Hsame; reflexivity|].
  split; [|apply Hpiper; reflexivity].
  apply (Hdiff "Hi" "a" Float64.one "Hi" "a" two).
  apply differ_speed. vm_compute. discriminate.
Defined.

(** ** The length scale given to the backend *)

Lemma synth_calls_ok srv rt v data :
  issues_only (synth_call_ok srv rt data) (handler srv rt v data).
Proof.
  destruct srv; unfold_handlers.
  - destruct (py_float rt (default (JFloat Float64.one) (b_speed data)))
      as [speed|e] eqn:Hs; cbn [bind of_result]; [|constructor].
    unfold py_truediv.
    destruct (Float64.is_zero speed) eqn:Hz; cbn [bind catch of_result];
      only_tac; try (split; [reflexivity|]; by exists speed).
  - only_tac; done.
Qed.

(** C9 as stated fails: piper-tts calls [voice.synthesize_wav(text,
    wav_file)] and passes no length scale, whatever the speed of the
    request. *)
Lemma piper_ignores_speed :
  List.filter is_synth
    (trace (snd (run toy_rt (handler Piper toy_rt lessac hello_fast) cold)))
  = [Synth lessac "Hi" None] /\
  py_float toy_rt (speed_field hello_fast) = Ok two.
Proof. split; vm_compute; reflexivity. Qed.

(** C9, amended.  Every backend call of the tts-server for a request is
    made on the request's text with [length_scale = 1.0 / speed], the
    binary64 quotient, where [speed] is the request's speed as a float
    and is not zero (for a zero speed the division raises and the backend
    is not called); piper-tts calls the backend without a length scale. *)
Theorem speed_is_inverse_length_scale srv rt v (data : body) (w : world) :
  Forall (synth_call_ok srv rt data)
    (new_events w (snd (run rt (handler srv rt v data) w))).
Proof.
  eapply issues_only_run; [apply synth_calls_ok|apply surjective_pairing].
Qed.

Example double_speed_halves_length_scale :
  List.filter is_synth
    (trace (snd (run toy_rt (handler Tts toy_rt lessac hello_fast) cold)))
  = [Synth (Voice 0 "en_US-lessac-medium.onnx") "Hi"
       (Some (S754_finite false 4503599627370496 (-53)))].
Proof. vm_compute. reflexivity. Qed.

(** ** The reported duration *)

(** C8 as stated fails: for 100 frames at 22050 Hz the workers report a
    duration of 0.0, which is not the quotient 100/22050 up to rounding
    of the division; the quotient itself would be. *)
Lemma reported_duration_is_rounded :
  reported_audio (fst (run toy_rt (handler Tts toy_rt lessac hello) cold))
  = Some (hex (Wav.pcm44 22050 100)) /\
  wave_open toy_rt (Wav.pcm44 22050 100) = Ok (WaveParams 100 22050) /\
  reported_duration (fst (run toy_rt (handler Tts toy_rt lessac hello) cold))
  = Some (S754_zero false) /\
  close_to_quotient (S754_zero false) 100 22050 = false /\
  close_to_quotient (Float64.fdiv (Float64.of_Z 100) (Float64.of_Z 22050))
    100 22050 = true.
Proof. repeat split; vm_compute; reflexivity. Qed.

(** C8, amended.  The duration in an audio response is a function of
    the audio bytes in that response and of nothing else: the frame count
    and the frame rate that [wave] reads from them, divided as floats and
    rounded to two decimal places.  This holds for both workers, whether
    the bytes come from the backend ([cached] false) or from the cache
    ([cached] true). *)
Theorem duration_is_probe_of_bytes
    srv rt v (data : body) (w w' : world) a dur m c :
  run rt (handler srv rt v data) w = (Ok (Response 200 (Audio a dur m c)), w') ->
  exists b, a = hex b /\ probe rt b = Ok dur.
Proof.
  unfold probe. destruct srv; unfold_handlers.
  - exec; intros; simplify_eq; eexists; (split; [reflexivity|]);
      repeat match goal with H : _ = Ok _ |- _ => rewrite H end; reflexivity.
  - exec; intros; simplify_eq; eexists; (split; [reflexivity|]);
      repeat match goal with H : _ = Ok _ |- _ => rewrite H end; reflexivity.
Qed.

Lemma duration_is_probe_of_bytes_witness :
  exists b,
    hex (Wav.pcm44 22050 100) = hex b /\
    probe toy_rt b = Ok (S754_zero false).
Proof.
  apply (duration_is_probe_of_bytes Tts toy_rt lessac hello cold
           (snd (run toy_rt (handler Tts toy_rt lessac hello) cold))
           (hex (Wav.pcm44 22050 100)) (S754_zero false)
           (Some "en_US-lessac-medium") false).
  vm_compute. reflexivity.
Defined.

(** ** Serving from the cache *)

Lemma cached_after_success srv rt v data w a dur m c w1 :
  use_cache_of data = true ->
  run rt (handler srv rt v data) w = (Ok (Response 200 (Audio a dur m c)), w1) ->
  exists f b,
    cache_file_of srv rt data = Some f /\ cache_dir w1 !! f = Some b /\
    a = hex b /\ probe rt b = Ok dur /\
    str_truthy (b_text data) = true /\ m = model_reported srv data.
Proof.
  unfold use_cache_of, probe, cache_file_of, model_reported, speed_field,
    text_of, model_of.
  intros Hc. destruct srv; unfold_handlers; rewrite Hc.
  - exec; intros; simplify_eq; do 2 eexists; (split; [reflexivity|]);
      exec_step; rewrite ?lookup_insert_eq;
      repeat match goal with H : _ = Ok _ |- _ => rewrite H end;
      repeat match goal with H : _ !! _ = Some _ |- _ => rewrite H end;
      repeat split; congruence.
  - destruct (b_text data) as [t|]; simpl; [|discriminate].
    exec; intros; simplify_eq; do 2 eexists; (split; [reflexivity|]);
      exec_step; rewrite ?lookup_insert_eq;
      repeat match goal with H : _ = Ok _ |- _ => rewrite H end;
      repeat match goal with H : _ !! _ = Some _ |- _ => rewrite H end;
      repeat split; congruence.
Qed.

Lemma hit_run srv rt v data w f b :
  use_cache_of data = true ->
  str_truthy (b_text data) = true ->
  cache_file_of srv rt data = Some f ->
  cache_dir w !! f = Some b ->
  run rt (handler srv rt v data) w
  = (hit_answer srv rt b, replay (hit_events srv f) w).
Proof.
  unfold use_cache_of, hit_answer, hit_events, probe, cache_file_of,
    speed_field, text_of, model_of.
  intros Hc Ht Hf Hb. destruct srv; unfold_handlers.
  - destruct (py_float rt _) as [speed|]; [|done]. injection Hf as <-.
    rewrite Hc, Ht. do 3 (exec_step; rewrite ?Hb). reflexivity.
  - injection Hf as <-. destruct (b_text data) as [t|]; [|done]. simpl in *.
    rewrite Hc, Ht. do 4 (exec_step; rewrite ?Hb).
    destruct (wave_open rt b) as [wav|]; [|done]. exec_step.
    destruct (duration_of wav) as [x|]; reflexivity.
Qed.

Lemma hit_keeps_cache srv f w :
  cache_dir (replay (hit_events srv f) w) = cache_dir w.
Proof. apply cache_dir_replay. destruct srv; repeat constructor. Qed.

Lemma hit_calls_no_backend srv f : count is_synth (hit_events srv f) = 0%nat.
Proof. by destruct srv. Qed.

(** C3.  After a successful call with [use_cache] true, the cache holds
    an entry under the request's key whose bytes are the audio of that
    answer, and a second call with the same inputs finds it, calls the
    backend no more and leaves the cache as it is.  piper-tts then
    answers the same audio and the same duration with [cached] true.  The
    tts-server does not: its cached branch hands [wave.open] a path, and
    the second call raises [AttributeError]. *)
Theorem second_call_on_each_worker
    srv rt v (data : body) (w w1 : world) a dur m c :
  use_cache_of data = true ->
  run rt (handler srv rt v data) w = (Ok (Response 200 (Audio a dur m c)), w1) ->
  exists f b w2,
    cache_file_of srv rt data = Some f /\
    cache_dir w1 !! f = Some b /\ a = hex b /\
    run rt (handler srv rt v data) w1
    = (match srv with
       | Piper => Ok (Response 200 (Audio a dur m true))
       | Tts => Err AttributeError
       end, w2) /\
    cache_dir w2 = cache_dir w1 /\
    count is_synth (new_events w1 w2) = 0%nat.
Proof.
  intros Hc Hrun.
  destruct (cached_after_success _ _ _ _ _ _ _ _ _ _ Hc Hrun)
    as (f & b & Hf & Hb & -> & Hp & Ht & ->).
  exists f, b, (replay (hit_events srv f) w1).
  split; [done|]. split; [done|]. split; [done|].
  split.
  - rewrite (hit_run srv rt v data w1 f b) by done.
    destruct srv; cbn [hit_answer model_reported]; [done|by rewrite Hp].
  - split; [apply hit_keeps_cache|].
    rewrite new_events_replay. apply hit_calls_no_backend.
Qed.

Lemma second_call_on_each_worker_witness :
  exists f b w2,
    cache_file_of Tts toy_rt hello = Some f /\
    cache_dir (snd (run toy_rt (handler Tts toy_rt lessac hello) cold)) !! f
    = Some b /\
    hex (Wav.pcm44 22050 100) = hex b /\
    run toy_rt (handler Tts toy_rt lessac hello)
      (snd (run toy_rt (handler Tts toy_rt lessac hello) cold))
    = (Err AttributeError, w2) /\
    cache_dir w2
    = cache_dir (snd (run toy_rt (handler Tts toy_rt lessac hello) cold)) /\
    count is_synth
      (new_events (snd (run toy_rt (handler Tts toy_rt lessac hello) cold)) w2)
    = 0%nat.
Proof.
  apply (second_call_on_each_worker Tts toy_rt lessac hello cold
           (snd (run toy_rt (handler Tts toy_rt lessac hello) cold))
           (hex (Wav.pcm44 22050 100)) (S754_zero false)
           (Some "en_US-lessac-medium") false).
  - reflexivity.
  - vm_compute. reflexivity.
Defined.

(** The same request sent twice to each worker on a fresh process. *)
Example second_call_to_each_worker :
  fst (run toy_rt (handler Tts toy_rt lessac hello)
         (snd (run toy_rt (handler Tts toy_rt lessac hello) cold)))
  = Err AttributeError /\
  fst (run toy_rt (handler Piper toy_rt lessac hello)
         (snd (run toy_rt (handler Piper toy_rt lessac hello) cold)))
  = Ok (Response 200
          (Audio (hex (Wav.pcm44 22050 100)) (S754_zero false) None true)).
Proof. split; vm_compute; reflexivity. Qed.

(** ** Failures of the compute path *)

Lemma count_cons p o l :
  count p (o :: l) = ((if p o then 1 else 0) + count p l)%nat.
Proof. unfold count. simpl. by destruct (p o). Qed.

Lemma count_nil p : count p [] = 0%nat.
Proof. reflexivity. Qed.

Ltac norm_count :=
  rewrite ?count_app, ?count_cons, ?count_nil in *;
  cbn [is_synth is_load is_store_of Nat.add] in *;
  rewrite ?Nat.add_0_r in *.

Ltac backend_tac w :=
  unfold backend_result; norm_world w;
  rewrite ?new_events_replay, ?new_events_same; cbn [List.filter is_synth];
  norm_count.

Lemma cache_changed_only_by_backend_audio srv rt v data w r w' :
  run rt (handler srv rt v data) w = (r, w') ->
  (forall audio, backend_result rt w w' <> Some (Ok audio)) ->
  cache_dir w' = cache_dir w.
Proof.
  destruct srv; unfold_handlers.
  - exec; intros [= <- <-]; try reflexivity; backend_tac w; intros Hb;
      exfalso; eapply Hb; f_equal; eassumption.
  - exec; intros [= <- <-]; try reflexivity; backend_tac w; intros Hb;
      exfalso; eapply Hb; f_equal; eassumption.
Qed.




Example backend_failure_on_both_workers :
  run broken_rt (handler Tts broken_rt lessac hello) cold
  = (Ok (Response 500 (ErrorOf (LibraryError 1))),
     replay [CacheExists "md5-Hi:en_US-lessac-medium:1.0.wav";
             ModelLookup "en_US-lessac-medium";
             ModelExists "en_US-lessac-medium.onnx";
             ModelLoad "en_US-lessac-medium.onnx";
             ModelStore "en_US-lessac-medium" (Voice 0 "en_US-lessac-medium.onnx");
             Synth (Voice 0 "en_US-lessac-medium.onnx") "Hi" (Some Float64.one)]
       cold) /\
  run broken_rt (handler Piper broken_rt lessac hello) cold
  = (Err (LibraryError 1),
     replay [CacheExists "sha256-Hi.wav"; Synth lessac "Hi" None] cold).
Proof. split; vm_compute; reflexivity. Qed.


(** ** The table of loaded models *)

Ltac keep_tac :=
  intros; simplify_eq; exec_step;
  rewrite ?lookup_insert; repeat case_decide; simplify_eq; try done;
  try congruence.

Lemma load_model_keeps rt name w r w1 n v :
  run rt (TtsServer.load_model name) w = (r, w1) ->
  loaded_models w !! n = Some v -> loaded_models w1 !! n = Some v.
Proof. unfold_handlers. exec; keep_tac. Qed.

Lemma synthesize_keeps rt data w r w1 n v :
  run rt (TtsServer.synthesize rt data) w = (r, w1) ->
  loaded_models w !! n = Some v -> loaded_models w1 !! n = Some v.
Proof. unfold_handlers. exec; keep_tac. Qed.

Lemma later_keeps rt w w' n v :
  later rt w w' ->
  loaded_models w !! n = Some v -> loaded_models w' !! n = Some v.
Proof.
  induction 1; intros Hn; [done| |]; apply IHlater.
  - eapply load_model_keeps; eauto.
  - eapply synthesize_keeps; eauto.
Qed.

Lemma load_model_registers rt name w v w1 :
  run rt (TtsServer.load_model name) w = (Ok v, w1) ->
  loaded_models w1 !! name = Some v.
Proof.
  unfold_handlers. exec; intros; simplify_eq; exec_step.
  - done.
  - by rewrite lookup_insert_eq.
Qed.

Lemma load_model_reuses rt name w v :
  loaded_models w !! name = Some v ->
  run rt (TtsServer.load_model name) w = (Ok v, op_effect (ModelLookup name) w).
Proof. intros H. unfold_handlers. exec_step. rewrite H. reflexivity. Qed.

Ltac once_tac :=
  intros; simplify_eq; exec_step; norm_count;
  repeat match goal with
    | |- context [bool_decide (?a = ?b)] =>
        destruct (decide (a = b)) as [<-|];
        [rewrite bool_decide_eq_true_2 by done
        |rewrite bool_decide_eq_false_2 by done]
    end;
  rewrite ?lookup_insert_eq, ?lookup_insert_ne by done;
  split; intros; try done; try lia;
  repeat match goal with
    | H : ?P -> _, H' : ?P |- _ => specialize (H H')
    end; try lia.

Lemma load_model_once rt name w r w1 :
  run rt (TtsServer.load_model name) w = (r, w1) ->
  loaded_once w -> loaded_once w1.
Proof.
  unfold_handlers. intros Hrun Hw n. destruct (Hw n) as [Hle H0]. clear Hw.
  revert Hrun. exec; once_tac.
Qed.

Lemma synthesize_once rt data w r w1 :
  run rt (TtsServer.synthesize rt data) w = (r, w1) ->
  loaded_once w -> loaded_once w1.
Proof.
  unfold_handlers. intros Hrun Hw n. destruct (Hw n) as [Hle H0]. clear Hw.
  revert Hrun. exec; once_tac.
Qed.

Lemma later_once rt w w' : later rt w w' -> loaded_once w -> loaded_once w'.
Proof.
  induction 1; intros Hw; [done| |]; apply IHlater.
  - eapply load_model_once; eauto.
  - eapply synthesize_once; eauto.
Qed.

Lemma fresh_loaded_once w : trace w = [] -> loaded_once w.
Proof. intros H name. rewrite H. split; [cbn; lia|done]. Qed.

Lemma other_model_file name n :
  n <> name -> bool_decide (n +:+ ".onnx" = name +:+ ".onnx") = false.
Proof.
  intros Hn. apply bool_decide_eq_false_2. intros H.
  by apply append_inv_tail in H.
Qed.

Ltac reload_tac :=
  intros; simplify_eq; exec_step;
  rewrite ?count_app, ?count_cons, ?count_nil; cbn [is_load_of Nat.add];
  rewrite ?other_model_file by congruence;
  lia.

Lemma load_model_no_reload rt n w r w1 name v :
  run rt (TtsServer.load_model n) w = (r, w1) ->
  loaded_models w !! name = Some v ->
  count (is_load_of name) (trace w1) = count (is_load_of name) (trace w).
Proof. unfold_handlers. intros Hrun Hv. revert Hrun. exec; reload_tac. Qed.

Lemma synthesize_no_reload rt data w r w1 name v :
  run rt (TtsServer.synthesize rt data) w = (r, w1) ->
  loaded_models w !! name = Some v ->
  count (is_load_of name) (trace w1) = count (is_load_of name) (trace w).
Proof. unfold_handlers. intros Hrun Hv. revert Hrun. exec; reload_tac. Qed.

Lemma later_no_reload rt w w' name v :
  later rt w w' ->
  loaded_models w !! name = Some v ->
  count (is_load_of name) (trace w') = count (is_load_of name) (trace w).
Proof.
  induction 1 as [w|w w1 w2 n r Hrun _ IH|w w1 w2 d r Hrun _ IH];
    intros Hv; [done| |].
  - rewrite IH by (eapply load_model_keeps; eauto).
    eapply load_model_no_reload; eauto.
  - rewrite IH by (eapply synthesize_keeps; eauto).
    eapply synthesize_no_reload; eauto.
Qed.

Lemma later_trace rt w w' : later rt w w' -> exists evs, trace w' = trace w ++ evs.
Proof.
  induction 1 as [w|w w1 w2 n r Hrun _ [evs IH]|w w1 w2 d r Hrun _ [evs IH]].
  - exists []. by rewrite app_nil_r.
  - apply run_replay in Hrun as [evs1 ->]. rewrite trace_replay in IH.
    exists (evs1 ++ evs). by rewrite IH, app_assoc.
  - apply run_replay in Hrun as [evs1 ->]. rewrite trace_replay in IH.
    exists (evs1 ++ evs). by rewrite IH, app_assoc.
Qed.

Lemma load_model_loads_once rt n w r w1 :
  run rt (TtsServer.load_model n) w = (r, w1) ->
  (count is_load (new_events w w1) <= 1)%nat.
Proof.
  unfold_handlers.
  exec; intros [= <- <-]; norm_world w;
    rewrite ?new_events_replay, ?new_events_same; cbn; lia.
Qed.

(** C7, amended.  Once [load_model name] has returned a voice, having
    called [PiperVoice.load] once at most, every later call for the same
    name, after any number of other resolutions and requests served one
    after another, returns that same voice object from [loaded_models]
    and does nothing but look it up; the model of that name is not loaded
    again, neither in between nor by that call.  Along the whole history
    every name is registered at most once. *)
Theorem load_model_reuses_voice
    rt (name : string) (w w1 w2 : world) (v : voice) :
  run rt (TtsServer.load_model name) w = (Ok v, w1) ->
  later rt w1 w2 ->
  run rt (TtsServer.load_model name) w2
  = (Ok v, op_effect (ModelLookup name) w2) /\
  new_events w2 (op_effect (ModelLookup name) w2) = [ModelLookup name] /\
  (count is_load (new_events w w1) <= 1)%nat /\
  count (is_load_of name) (new_events w1 (op_effect (ModelLookup name) w2))
  = 0%nat /\
  (loaded_once w ->
   forall n, (count (is_store_of n)
                (trace (op_effect (ModelLookup name) w2)) <= 1)%nat).
Proof.
  intros Hrun Hlater.
  pose proof (load_model_registers _ _ _ _ _ Hrun) as Hreg.
  pose proof (later_keeps _ _ _ _ _ Hlater Hreg) as Hreg2.
  split; [by apply load_model_reuses|].
  split; [apply (new_events_replay [ModelLookup name])|].
  split; [by eapply load_model_loads_once|].
  split.
  - pose proof (later_no_reload _ _ _ _ _ Hlater Hreg) as Hsame.
    destruct (later_trace _ _ _ Hlater) as [evs Hevs].
    unfold new_events. rewrite trace_effect, Hevs, <- app_assoc, drop_app_length.
    rewrite Hevs, count_app in Hsame.
    rewrite count_app, count_cons, count_nil. cbn [is_load_of]. lia.
  - intros Hw n.
    assert (loaded_once w2) as Hw2.
    { eapply later_once; [exact Hlater|]. eapply load_model_once; eauto. }
    rewrite trace_effect, count_app, count_cons, count_nil. cbn [is_store_of].
    destruct (Hw2 n) as [Hle _]. lia.
Qed.

Lemma load_model_reuses_voice_witness :
  run toy_rt (TtsServer.load_model "en_US-lessac-medium")
    (snd (run toy_rt (TtsServer.synthesize toy_rt hello)
            (snd (run toy_rt (TtsServer.load_model "en_US-lessac-medium") cold))))
  = (Ok (Voice 0 "en_US-lessac-medium.onnx"),
     op_effect (ModelLookup "en_US-lessac-medium")
       (snd (run toy_rt (TtsServer.synthesize toy_rt hello)
               (snd (run toy_rt (TtsServer.load_model "en_US-lessac-medium") cold))))) /\
  count (is_load_of "en_US-lessac-medium")
    (new_events
       (snd (run toy_rt (TtsServer.load_model "en_US-lessac-medium") cold))
       (op_effect (ModelLookup "en_US-lessac-medium")
          (snd (run toy_rt (TtsServer.synthesize toy_rt hello)
                  (snd (run toy_rt (TtsServer.load_model "en_US-lessac-medium")
                          cold))))))
  = 0%nat.
Proof.
  destruct (load_model_reuses_voice toy_rt "en_US-lessac-medium" cold
              (snd (run toy_rt (TtsServer.load_model "en_US-lessac-medium") cold))
              (snd (run toy_rt (TtsServer.synthesize toy_rt hello)
                      (snd (run toy_rt (TtsServer.load_model "en_US-lessac-medium")
                              cold))))
              (Voice 0 "en_US-lessac-medium.onnx"))
    as (Hsame & _ & _ & Hnone & _).
  - vm_compute. reflexivity.
  - eapply later_request; [apply surjective_pairing|apply later_now].
  - split; [exact Hsame|exact Hnone].
Defined.

(** ** Concurrent requests *)

Ltac budget_tac :=
  repeat (cbn [bind catch call of_result negb];
          lazymatch goal with
          | |- synth_budget _ (Ret _) => apply budget_ret
          | |- synth_budget _ (Raise _) => apply budget_raise
          | |- synth_budget _ (Vis (Synth _ _ _) _) =>
              apply budget_synth; [reflexivity | intros [?|?]]
          | |- synth_budget _ (Vis _ _) =>
              apply budget_other; [reflexivity | intros [?|?]]
          | |- context [negb ?x] => split_on x
          | |- context [match ?x with _ => _ end] => split_on x
          | |- context [of_result ?x] => split_on x
          end).

Lemma handler_budget srv rt v data : synth_budget 1 (handler srv rt v data).
Proof. destruct srv; unfold_handlers; budget_tac. Qed.

Lemma budget_vis_inv {A : Type} n o (k : result (op_ret o) -> prog A) :
  synth_budget n (Vis o k) ->
  if is_synth o
  then exists m, n = S m /\ forall r, synth_budget m (k r)
  else forall r, synth_budget n (k r).
Proof.
  intros H.
  change (match Vis o k with
          | Vis o k =>
              if is_synth o
              then exists m, n = S m /\ forall r, synth_budget m (k r)
              else forall r, synth_budget n (k r)
          | _ => True
          end).
  destruct H as [| |n o' k' Ho Hk|n o' k' Ho Hk]; try done; rewrite Ho; eauto.
Qed.

Lemma sum_list_insert (ns : list nat) i n m :
  ns !! i = Some n ->
  (sum_list (<[i := m]> ns) + n = sum_list ns + m)%nat.
Proof.
  revert i. induction ns as [|x ns IH]; intros [|i]; simpl; try done.
  - intros [= ->]. lia.
  - intros H. specialize (IH _ H). lia.
Qed.

Lemma sum_list_replicate n k : sum_list (replicate n k) = (n * k)%nat.
Proof. induction n; simpl; lia. Qed.

Lemma pool_step_budget rt w ps w' ps' ns :
  pool_step rt (w, ps) (w', ps') ->
  Forall2 synth_budget ns ps ->
  exists ns',
    Forall2 synth_budget ns' ps' /\
    (count is_synth (trace w') + sum_list ns'
     <= count is_synth (trace w) + sum_list ns)%nat.
Proof.
  inversion 1 as [i o k w0 ps0 Hi]; subst. intros Hns.
  destruct (Forall2_lookup_r _ _ _ _ _ Hns Hi) as (n & Hn & Hb).
  rewrite trace_effect, count_app, count_cons, count_nil.
  apply budget_vis_inv in Hb. destruct (is_synth o).
  - destruct Hb as (m & -> & Hk).
    exists (<[i := m]> ns). split.
    + apply Forall2_insert; [done|]. apply Hk.
    + pose proof (sum_list_insert ns i _ m Hn). lia.
  - exists ns. split.
    + rewrite <- (list_insert_id ns i n) at 1 by done.
      apply Forall2_insert; [done|]. apply Hb.
    + lia.
Qed.

Lemma pool_steps_budget rt c c' :
  rtc (pool_step rt) c c' ->
  forall ns, Forall2 synth_budget ns c.2 ->
  exists ns',
    Forall2 synth_budget ns' c'.2 /\
    (count is_synth (trace c'.1) + sum_list ns'
     <= count is_synth (trace c.1) + sum_list ns)%nat.
Proof.
  induction 1 as [c|[w ps] [w1 ps1] c' Hstep _ IH]; intros ns Hns.
  - exists ns. split; [done|lia].
  - destruct (pool_step_budget _ _ _ _ _ _ Hstep Hns) as (ns1 & Hns1 & Hle).
    destruct (IH _ Hns1) as (ns' & Hns' & Hle').
    exists ns'. split; [done|]. simpl in *. lia.
Qed.

Lemma pool_steps_trace rt c c' :
  rtc (pool_step rt) c c' -> exists evs, trace c'.1 = trace c.1 ++ evs.
Proof.
  induction 1 as [c|c c1 c' Hstep _ [evs IH]].
  - exists []. by rewrite app_nil_r.
  - inversion Hstep; subst. cbn [fst] in *.
    rewrite IH, trace_effect, <- app_assoc. eexists. reflexivity.
Qed.

Lemma schedule_steps rt sched c : rtc (pool_step rt) c (schedule rt sched c).
Proof.
  revert c. induction sched as [|i sched IH]; intros [w ps]; simpl; [done|].
  unfold schedule in *. simpl.
  unfold step_thread at 2. simpl.
  destruct (ps !! i) as [[a|e|o k]|] eqn:Hi; try apply IH.
  eapply rtc_l; [|apply IH]. by constructor.
Qed.

(** C7 as stated fails: the load of a voice can be performed more than
    once.  A load that raises registers nothing, and the next resolve of
    the same name calls [PiperVoice.load] again.  And [load_model] holds
    no lock between its look-up and its store: two requests that overlap
    both find the name missing, both load the model, and synthesize with
    two different voice objects. *)
Lemma load_repeated_for_one_voice :
  (fst (run unloadable_rt (TtsServer.load_model "en_US-lessac-medium") cold)
   = Err (LibraryError 2) /\
   fst (run unloadable_rt (TtsServer.load_model "en_US-lessac-medium")
          (snd (run unloadable_rt (TtsServer.load_model "en_US-lessac-medium") cold)))
   = Err (LibraryError 2) /\
   count (is_load_of "en_US-lessac-medium")
     (trace (snd (run unloadable_rt (TtsServer.load_model "en_US-lessac-medium")
                    (snd (run unloadable_rt
                            (TtsServer.load_model "en_US-lessac-medium") cold)))))
   = 2%nat) /\
  (rtc (pool_step toy_rt)
     (cold, replicate 2 (handler Tts toy_rt lessac hello_uncached)) racing_loads /\
   count (is_load_of "en_US-lessac-medium") (trace racing_loads.1) = 2%nat /\
   List.filter is_synth (trace racing_loads.1)
   = [Synth (Voice 0 "en_US-lessac-medium.onnx") "Hi" (Some Float64.one);
      Synth (Voice 1 "en_US-lessac-medium.onnx") "Hi" (Some Float64.one)]).
Proof.
  split; [|split; [apply schedule_steps|]]; repeat split; vm_compute; reflexivity.
Qed.

Lemma pool_synthesis_bound srv rt v data (K : nat) w c' :
  rtc (pool_step rt) (w, replicate K (handler srv rt v data)) c' ->
  (count is_synth (new_events w c'.1) <= K)%nat.
Proof.
  intros Hsteps.
  destruct (pool_steps_budget _ _ _ Hsteps (replicate K 1%nat))
    as (ns' & _ & Hle).
  { simpl. apply Forall2_replicate. apply handler_budget. }
  destruct (pool_steps_trace _ _ _ Hsteps) as [evs Hevs]. simpl in *.
  unfold new_events. rewrite Hevs, drop_app_length.
  rewrite Hevs, count_app, sum_list_replicate in Hle. lia.
Qed.

Lemma serve_hits srv rt v data f b (K : nat) w :
  use_cache_of data = true ->
  str_truthy (b_text data) = true ->
  cache_file_of srv rt data = Some f ->
  cache_dir w !! f = Some b ->
  exists w',
    serve rt (replicate K (handler srv rt v data)) w
    = (replicate K (hit_answer srv rt b), w') /\
    cache_dir w' = cache_dir w /\
    count is_synth (trace w') = count is_synth (trace w).
Proof.
  intros Hc Ht Hf. revert w.
  induction K as [|K IH]; intros w Hb; simpl.
  - by exists w.
  - rewrite (hit_run srv rt v data w f b) by done.
    pose proof (hit_keeps_cache srv f w) as Hsame.
    destruct (IH (replay (hit_events srv f) w)) as (w' & Hserve & Hcache & Hcount).
    { by rewrite Hsame. }
    exists w'. rewrite Hserve. split; [done|]. split; [congruence|].
    rewrite Hcount, trace_replay, count_app, hit_calls_no_backend. lia.
Qed.

(** C2 as stated fails: the workers hold no lock and keep no table of
    computations in flight.  Two threads serve the same request on a fresh
    process; both test [cache_file.exists()] before either has written the
    file, and both call the backend: two syntheses for one key, both
    answers with [cached] false. *)
Lemma two_requests_two_syntheses :
  rtc (pool_step toy_rt)
    (cold, replicate 2 (handler Tts toy_rt lessac hello)) racing /\
  count is_synth (trace racing.1) = 2%nat /\
  map (fun p => http_status <$> answer p) racing.2 = [Some 200; Some 200] /\
  map (fun p => reported_cached <$> answer p) racing.2
  = [Some (Some false); Some (Some false)].
Proof. split; [apply schedule_steps|]. repeat split; vm_compute; reflexivity. Qed.

(** Nor does a late arrival wait for the computation in flight: a thread
    of piper-tts that tests the cache between [open(cache_file, 'wb')] and
    the write of the other thread finds the file, reads it empty, and
    fails. *)
Lemma late_request_reads_empty_file :
  rtc (pool_step toy_rt)
    (cold, replicate 2 (handler Piper toy_rt lessac hello)) torn /\
  map answer torn.2 = [None; Some (Err EOFError)].
Proof. split; [apply schedule_steps|]. vm_compute. reflexivity. Qed.

(** C2, amended.  There is no single-flight, but every request calls the
    backend at most once: in every interleaving of [K] threads that serve
    the same request, at most [K] syntheses run.  Exactly one runs when
    the requests do not overlap: after one request with [use_cache] true
    has been answered with audio, [K] further identical requests served
    one after another cause no backend call and no change to the cache,
    and piper-tts answers them all from the cache with that audio and
    that duration. *)
Theorem synthesis_bounded_not_single_flight srv rt v (data : body) (K : nat) :
  (forall w c',
     rtc (pool_step rt) (w, replicate K (handler srv rt v data)) c' ->
     (count is_synth (new_events w c'.1) <= K)%nat) /\
  (forall w w1 a dur m c,
     use_cache_of data = true ->
     run rt (handler srv rt v data) w
     = (Ok (Response 200 (Audio a dur m c)), w1) ->
     exists rs w2,
       serve rt (replicate K (handler srv rt v data)) w1 = (rs, w2) /\
       cache_dir w2 = cache_dir w1 /\
       count is_synth (trace w2) = count is_synth (trace w1) /\
       (srv = Piper ->
        rs = replicate K (Ok (Response 200 (Audio a dur m true))))).
Proof.
  split; [intros; by eapply pool_synthesis_bound|].
  intros w w1 a dur m c Hc Hrun.
  destruct (cached_after_success _ _ _ _ _ _ _ _ _ _ Hc Hrun)
    as (f & b & Hf & Hb & -> & Hp & Ht & ->).
  destruct (serve_hits srv rt v data f b K w1 Hc Ht Hf Hb)
    as (w2 & Hserve & Hcache & Hcount).
  exists (replicate K (hit_answer srv rt b)), w2.
  repeat split; try done.
  intros ->. cbn [hit_answer model_reported]. by rewrite Hp.
Qed.

Lemma synthesis_bounded_not_single_flight_witness :
  (count is_synth (new_events cold torn.1) <= 2)%nat /\
  exists rs w2,
    serve toy_rt (replicate 2 (handler Piper toy_rt lessac hello))
      (snd (run toy_rt (handler Piper toy_rt lessac hello) cold))
    = (rs, w2) /\
    cache_dir w2
    = cache_dir (snd (run toy_rt (handler Piper toy_rt lessac hello) cold)) /\
    count is_synth (trace w2)
    = count is_synth
        (trace (snd (run toy_rt (handler Piper toy_rt lessac hello) cold))) /\
    (Piper = Piper ->
     rs = replicate 2
            (Ok (Response 200
                   (Audio (hex (Wav.pcm44 22050 100)) (S754_zero false)
                      None true)))).
Proof.
  destruct (synthesis_bounded_not_single_flight Piper toy_rt lessac hello 2)
    as [Hbound Hseq].
  split.
  - apply Hbound. apply schedule_steps.
  - apply (Hseq cold _ _ _ _ false); [reflexivity|]. vm_compute. reflexivity.
Defined.

(** * Further properties of the two workers *)

(** ** What a request does to the cache *)

Lemma cache_update srv rt v data w r w' :
  run rt (handler srv rt v data) w = (r, w') ->
  cache_dir w' = cache_dir w \/
  exists f audio,
    cache_file_of srv rt data = Some f /\
    use_cache_of data = true /\
    cache_dir w !! f = None /\
    backend_result rt w w' = Some (Ok audio) /\
    cache_dir w' = <[f := audio]> (cache_dir w).
Proof.
  unfold cache_file_of, use_cache_of, speed_field, text_of, model_of.
  destruct srv; unfold_handlers.
  - exec; intros [= <- <-]; try (left; reflexivity); right;
      do 2 eexists; (split; [reflexivity|]); (split; [reflexivity|]);
      (split; [eassumption|]); backend_tac w;
      (split; [f_equal; eassumption|]); exec_step; apply insert_insert_eq.
  - destruct (b_text data) as [t|]; simpl.
    + exec; intros [= <- <-]; try (left; reflexivity); right;
      do 2 eexists; (split; [reflexivity|]); (split; [reflexivity|]);
      (split; [eassumption|]); backend_tac w;
      (split; [f_equal; eassumption|]); exec_step; apply insert_insert_eq.
    + intros [= <- <-]. by left.
Qed.

(** X1.  A request changes the cache directory in one way only: it adds
    one file, under the request's own key, which was absent before, the
    request asked for caching, and the file holds exactly the bytes the
    backend returned to this request.  In every other case the cache
    directory after the request is the one before it. *)
Theorem cache_written_only_on_miss_with_backend_audio
    srv rt v (data : body) (w w' : world) r :
  run rt (handler srv rt v data) w = (r, w') ->
  cache_dir w' = cache_dir w \/
  exists f audio,
    cache_file_of srv rt data = Some f /\
    use_cache_of data = true /\
    cache_dir w !! f = None /\
    backend_result rt w w' = Some (Ok audio) /\
    cache_dir w' = <[f := audio]> (cache_dir w).
Proof. apply cache_update. Qed.

Lemma cache_written_only_on_miss_with_backend_audio_witness :
  cache_dir (snd (run toy_rt (handler Tts toy_rt lessac hello) cold))
  = cache_dir cold \/
  exists f audio,
    cache_file_of Tts toy_rt hello = Some f /\
    use_cache_of hello = true /\
    cache_dir cold !! f = None /\
    backend_result toy_rt cold
      (snd (run toy_rt (handler Tts toy_rt lessac hello) cold))
    = Some (Ok audio) /\
    cache_dir (snd (run toy_rt (handler Tts toy_rt lessac hello) cold))
    = <[f := audio]> (cache_dir cold).
Proof.
  apply (cache_written_only_on_miss_with_backend_audio Tts toy_rt lessac hello
           cold (snd (run toy_rt (handler Tts toy_rt lessac hello) cold))
           (fst (run toy_rt (handler Tts toy_rt lessac hello) cold))).
  apply surjective_pairing.
Defined.

Lemma run_keeps_entries srv rt v data w :
  cache_dir w ⊆ cache_dir (snd (run rt (handler srv rt v data) w)).
Proof.
  destruct (run rt (handler srv rt v data) w) as [r w'] eqn:Hrun. simpl.
  destruct (cache_update _ _ _ _ _ _ _ Hrun)
    as [->|(f & audio & _ & _ & Hnone & _ & ->)]; [done|].
  by apply insert_subseteq.
Qed.

(** X2.  Neither worker ever deletes or overwrites a cache file: after
    any sequence of requests to either worker, served one after another,
    every file that was in the cache is still there with the same
    content.  The cache has no eviction and no expiry. *)
Theorem cache_entries_are_never_changed
    rt v (reqs : list (server * body)) (w : world) :
  cache_dir w ⊆
  cache_dir (snd (serve rt (map (fun q => handler q.1 rt v q.2) reqs) w)).
Proof.
  revert w. induction reqs as [|[srv d] reqs IH]; intros w; simpl; [done|].
  pose proof (run_keeps_entries srv rt v d w) as H1.
  destruct (run rt (handler srv rt v d) w) as [r w1]. simpl in H1.
  specialize (IH w1). destruct (serve rt _ w1) as [rs w2]. simpl in *.
  by etrans.
Qed.

(** X3.  A request touches no cache file but the one of its own key: a
    file name that is not the request's cache file is present after the
    request exactly if it was before, with the same content. *)
Theorem other_keys_are_untouched srv rt v (data : body) (w : world) (f : string) :
  cache_file_of srv rt data <> Some f ->
  cache_dir (snd (run rt (handler srv rt v data) w)) !! f = cache_dir w !! f.
Proof.
  intros Hf.
  destruct (run rt (handler srv rt v data) w) as [r w'] eqn:Hrun. simpl.
  destruct (cache_update _ _ _ _ _ _ _ Hrun)
    as [->|(f' & audio & Hf' & _ & _ & _ & ->)]; [done|].
  apply lookup_insert_ne. congruence.
Qed.

Lemma other_keys_are_untouched_witness :
  cache_dir (snd (run toy_rt (handler Piper toy_rt lessac hello) cold))
    !! "md5-Hi:en_US-lessac-medium:1.0.wav"
  = cache_dir cold !! "md5-Hi:en_US-lessac-medium:1.0.wav".
Proof.
  apply (other_keys_are_untouched Piper toy_rt lessac hello cold
           "md5-Hi:en_US-lessac-medium:1.0.wav").
  vm_compute. discriminate.
Defined.

(** ** Audio that cannot be read back *)

Ltac use_probe Hp :=
  unfold probe in Hp;
  repeat match goal with
    | H : wave_open _ _ = _ |- _ => rewrite H in Hp
    | H : duration_of _ = _ |- _ => rewrite H in Hp
    end;
  simplify_eq.

(** X4.  The two workers order the cache write and the duration
    computation differently.  When the backend returns bytes whose
    duration cannot be computed (they are not a readable WAV file) on a
    request that uses the cache, the tts-server has already stored them
    under the request's key when it answers 500 with the error, while
    piper-tts raises the error before its cache write and leaves the
    cache as it was. *)
Theorem unparseable_audio_is_stored_by_tts_only
    srv rt v (data : body) (w w' : world) r (audio : bytes) e :
  run rt (handler srv rt v data) w = (r, w') ->
  use_cache_of data = true ->
  backend_result rt w w' = Some (Ok audio) ->
  probe rt audio = Err e ->
  match srv with
  | Tts =>
      r = Ok (Response 500 (ErrorOf e)) /\
      exists f, cache_file_of Tts rt data = Some f /\
                cache_dir w' !! f = Some audio
  | Piper => r = Err e /\ cache_dir w' = cache_dir w
  end.
Proof.
  unfold cache_file_of, use_cache_of, speed_field, text_of, model_of.
  intros Hrun Hc. revert Hrun.
  destruct srv; unfold_handlers; rewrite Hc.
  - exec; intros [= <- <-]; backend_tac w; try discriminate;
      intros [= Hb] Hp; rewrite Hb in *; simplify_eq; use_probe Hp;
      (split; [reflexivity|]); eexists; (split; [reflexivity|]);
      exec_step; apply lookup_insert_eq.
  - exec; intros [= <- <-]; backend_tac w; try discriminate;
      intros [= Hb] Hp; rewrite Hb in *; simplify_eq; use_probe Hp;
      split; reflexivity.
Qed.

Lemma unparseable_audio_is_stored_by_tts_only_witness :
  fst (run mute_rt (handler Tts mute_rt lessac hello) cold)
  = Ok (Response 500 (ErrorOf EOFError)) /\
  exists f, cache_file_of Tts mute_rt hello = Some f /\
            cache_dir poisoned !! f = Some [].
Proof.
  apply (unparseable_audio_is_stored_by_tts_only Tts mute_rt lessac hello cold
           poisoned (fst (run mute_rt (handler Tts mute_rt lessac hello) cold))
           [] EOFError).
  - apply surjective_pairing.
  - reflexivity.
  - vm_compute. reflexivity.
  - reflexivity.
Defined.

(** X5.  A cache file that cannot be served is never repaired.  Every
    later request for its key that uses the cache takes the cached
    branch, which neither worker guards: the exception escapes the view
    function, the backend is not called again and the file stays as it
    is, however often the request is repeated.  In piper-tts this is a
    file whose duration cannot be computed, and the exception is that of
    the computation; in the tts-server it is every cache file, and the
    exception is the [AttributeError] of [wave.open] on a path. *)
Theorem unservable_entry_fails_every_request
    srv rt v (data : body) (w : world) (f : string) (b : bytes) e (K : nat) :
  use_cache_of data = true ->
  str_truthy (b_text data) = true ->
  cache_file_of srv rt data = Some f ->
  cache_dir w !! f = Some b ->
  match srv with
  | Tts => e = AttributeError
  | Piper => probe rt b = Err e
  end ->
  exists w',
    serve rt (replicate K (handler srv rt v data)) w = (replicate K (Err e), w') /\
    cache_dir w' = cache_dir w /\
    count is_synth (trace w') = count is_synth (trace w).
Proof.
  intros Hc Ht Hf Hb He.
  destruct (serve_hits srv rt v data f b K w Hc Ht Hf Hb) as (w' & Hs & Hrest).
  exists w'. split; [|exact Hrest]. rewrite Hs.
  destruct srv; cbn [hit_answer]; [by subst|by rewrite He].
Qed.

Lemma unservable_entry_fails_every_request_witness :
  exists w',
    serve toy_rt (replicate 2 (handler Piper toy_rt lessac hello)) torn.1
    = (replicate 2 (Err EOFError), w') /\
    cache_dir w' = cache_dir torn.1 /\
    count is_synth (trace w') = count is_synth (trace torn.1).
Proof.
  apply (unservable_entry_fails_every_request Piper toy_rt lessac hello torn.1
           "sha256-Hi.wav" [] EOFError 2).
  - reflexivity.
  - reflexivity.
  - vm_compute. reflexivity.
  - vm_compute. reflexivity.
  - reflexivity.
Defined.

(** ** Responses *)



(** X7.  A request is answered with status 200, 400 or 500 and no other
    (an exception that leaves the view function counts as 500).  The
    status is 400 exactly when the text is missing or empty and, in the
    tts-server, the speed was a float.  A 200 response carries audio, a
    duration, the [cached] flag and the model: in the tts-server the
    model name of the request or the default, in piper-tts no model. *)
Theorem status_is_200_400_or_500 srv rt v (data : body) (w w' : world) r :
  run rt (handler srv rt v data) w = (r, w') ->
  (http_status r = 200 \/ http_status r = 400 \/ http_status r = 500) /\
  (http_status r = 400 <-> rejected srv rt data) /\
  (http_status r = 200 ->
   exists a dur c, r = Ok (Response 200 (Audio a dur (model_reported srv data) c))).
Proof.
  unfold rejected, speed_field, model_reported, model_of.
  destruct srv; unfold_handlers.
  - exec; intros [= <- <-]; cbn [http_status status];
      (split; [auto|]); split;
      try (split; [discriminate|intros [? ?]; try congruence]);
      try (intros; discriminate); eauto.
    all: try (destruct H0 as [? ?]; [done|congruence]).
    all: try (split; [intros _; split; [done|intros _; eauto]|done]).
  - destruct (b_text data) as [t|]; simpl.
    + exec; intros [= <- <-]; cbn [http_status status];
      (split; [auto|]); split;
      try (split; [discriminate|intros [? ?]; try congruence]);
      try (intros; discriminate); eauto.
      all: try (split; [intros _; split; [done|intros; discriminate]|done]).
    + intros [= <- <-]. cbn. split; [auto|]. split; [|discriminate].
      split; [|done]. intros _. split; [done|discriminate].
Qed.

Lemma status_is_200_400_or_500_witness :
  http_status (fst (run toy_rt (handler Tts toy_rt lessac hello) cold)) = 200 /\
  ~ rejected Tts toy_rt hello.
Proof.
  destruct (status_is_200_400_or_500 Tts toy_rt lessac hello cold
              (snd (run toy_rt (handler Tts toy_rt lessac hello) cold))
              (fst (run toy_rt (handler Tts toy_rt lessac hello) cold)))
    as (_ & H400 & _).
  - apply surjective_pairing.
  - split; [reflexivity|]. intros Hr. apply H400 in Hr. discriminate Hr.
Defined.

(** X8.  The [cached] flag of an audio response tells the truth.  With
    [cached: true] the request did nothing but look its cache file up and
    read it, and the audio is the hex form of the stored bytes; with
    [cached: false] the backend was called exactly once for the request
    and the audio is the hex form of what it returned. *)
Theorem cached_flag_is_truthful
    srv rt v (data : body) (w w' : world) st a dur m (c : bool) :
  run rt (handler srv rt v data) w = (Ok (Response st (Audio a dur m c)), w') ->
  if c
  then exists f b,
         cache_file_of srv rt data = Some f /\ cache_dir w !! f = Some b /\
         a = hex b /\
         new_events w w' = [CacheExists f; CacheRead f; CacheRead f]
  else exists b,
         backend_result rt w w' = Some (Ok b) /\ a = hex b /\
         count is_synth (new_events w w') = 1%nat.
Proof.
  unfold cache_file_of, speed_field, text_of, model_of.
  destruct srv; unfold_handlers.
  - exec; intros; simplify_eq.
    all: try (do 2 eexists; (split; [reflexivity|]); (split; [eassumption|]);
              (split; [reflexivity|]); norm_world w; apply new_events_replay).
    all: eexists; backend_tac w; (split; [f_equal; eassumption|]);
      (split; [reflexivity|]); norm_world w; rewrite ?new_events_replay;
      reflexivity.
  - destruct (b_text data) as [t|]; simpl; [|discriminate].
    exec; intros; simplify_eq.
    all: try (do 2 eexists; (split; [reflexivity|]); (split; [eassumption|]);
              (split; [reflexivity|]); norm_world w; apply new_events_replay).
    all: eexists; backend_tac w; (split; [f_equal; eassumption|]);
      (split; [reflexivity|]); norm_world w; rewrite ?new_events_replay;
      reflexivity.
Qed.

Lemma cached_flag_is_truthful_witness :
  exists b,
    backend_result toy_rt cold
      (snd (run toy_rt (handler Tts toy_rt lessac hello) cold)) = Some (Ok b) /\
    hex (Wav.pcm44 22050 100) = hex b /\
    count is_synth
      (new_events cold (snd (run toy_rt (handler Tts toy_rt lessac hello) cold)))
    = 1%nat.
Proof.
  apply (cached_flag_is_truthful Tts toy_rt lessac hello cold
           (snd (run toy_rt (handler Tts toy_rt lessac hello) cold))
           200 (hex (Wav.pcm44 22050 100)) (S754_zero false)
           (Some "en_US-lessac-medium") false).
  vm_compute. reflexivity.
Defined.

(** ** Zero speed and failed syntheses *)



Lemma truediv_ok a b c : py_truediv a b = Ok c -> Float64.is_zero b = false.
Proof. unfold py_truediv. by destruct (Float64.is_zero b). Qed.

Lemma ready_after_backend_call srv rt v data w r w' res :
  run rt (handler srv rt v data) w = (r, w') ->
  backend_result rt w w' = Some (Err res) ->
  ready_to_synthesize srv rt data w'.
Proof.
  unfold ready_to_synthesize, cache_file_of, use_cache_of, speed_field,
    text_of, model_of.
  destruct srv; unfold_handlers.
  - exec; intros [= <- <-]; backend_tac w; try discriminate; intros [= Hb];
      try congruence;
      (split; [reflexivity|]);
      (split; [first [left; reflexivity
                     |right; eexists; split; [reflexivity|]; exec_step; assumption]|]);
      do 2 eexists; (split; [reflexivity|]);
      (split; [eapply truediv_ok; eassumption|]);
      unfold replay; cbn [fold_left]; exec_step; rewrite ?lookup_insert_eq;
      done.
  - destruct (b_text data) as [t|]; simpl.
    + exec; intros [= <- <-]; backend_tac w; try discriminate; intros [= Hb];
      try congruence;
      (split; [reflexivity|]); (split; [|done]);
      first [left; reflexivity
            |right; eexists; split; [reflexivity|]; exec_step; assumption].
    + intros [= <- <-]. backend_tac w. discriminate.
Qed.

Lemma ready_calls_backend srv rt v data w :
  ready_to_synthesize srv rt data w ->
  count is_synth (new_events w (snd (run rt (handler srv rt v data) w))) = 1%nat /\
  count is_load (new_events w (snd (run rt (handler srv rt v data) w))) = 0%nat.
Proof.
  unfold ready_to_synthesize, cache_file_of, use_cache_of, speed_field,
    text_of, model_of.
  intros (Ht & Hmiss & Hsrv).
  destruct (run rt (handler srv rt v data) w) as [r w'] eqn:Hrun. simpl.
  revert Hrun. destruct srv; unfold_handlers.
  - destruct Hsrv as (speed & v0 & Hs & Hz & Hl).
    rewrite Hs in *. rewrite Ht. cbn [bind of_result negb].
    unfold py_truediv. rewrite Hz.
    destruct Hmiss as [Hc|(f & [= <-] & Hf)]; [rewrite Hc|];
      exec; intros [= <- <-]; norm_world w; rewrite ?new_events_replay;
      try (split; reflexivity); congruence.
  - destruct (b_text data) as [t|]; [|done]. simpl in Ht, Hmiss |- *. rewrite Ht.
    destruct Hmiss as [Hc|(f & [= <-] & Hf)]; [rewrite Hc|];
      exec; intros [= <- <-]; norm_world w; rewrite ?new_events_replay;
      try (split; reflexivity); congruence.
Qed.

(** X10.  A failure of the backend is not remembered.  After a request
    whose backend call raised, the cache is as before, and the same
    request sent again calls the backend again, exactly once, without
    loading the model a second time: the voice loaded for the failed
    attempt stays in [loaded_models]. *)
Theorem failed_synthesis_is_retried
    srv rt v (data : body) (w w1 : world) r e :
  run rt (handler srv rt v data) w = (r, w1) ->
  backend_result rt w w1 = Some (Err e) ->
  cache_dir w1 = cache_dir w /\
  count is_synth (new_events w1 (snd (run rt (handler srv rt v data) w1))) = 1%nat /\
  count is_load (new_events w1 (snd (run rt (handler srv rt v data) w1))) = 0%nat.
Proof.
  intros Hrun Hb. split.
  - eapply cache_changed_only_by_backend_audio; [exact Hrun|].
    intros audio. rewrite Hb. discriminate.
  - apply ready_calls_backend. eapply ready_after_backend_call; eauto.
Qed.

Lemma failed_synthesis_is_retried_witness :
  cache_dir (snd (run broken_rt (handler Tts broken_rt lessac hello) cold))
  = cache_dir cold /\
  count is_synth
    (new_events (snd (run broken_rt (handler Tts broken_rt lessac hello) cold))
       (snd (run broken_rt (handler Tts broken_rt lessac hello)
               (snd (run broken_rt (handler Tts broken_rt lessac hello) cold)))))
  = 1%nat /\
  count is_load
    (new_events (snd (run broken_rt (handler Tts broken_rt lessac hello) cold))
       (snd (run broken_rt (handler Tts broken_rt lessac hello)
               (snd (run broken_rt (handler Tts broken_rt lessac hello) cold)))))
  = 0%nat.
Proof.
  apply (failed_synthesis_is_retried Tts broken_rt lessac hello cold
           (snd (run broken_rt (handler Tts broken_rt lessac hello) cold))
           (fst (run broken_rt (handler Tts broken_rt lessac hello) cold))
           (LibraryError 1)).
  - apply surjective_pairing.
  - vm_compute. reflexivity.
Defined.

(** ** Model loading and [/health] *)





Lemma later_invariant rt (P : world -> Prop) :
  (forall name w r w1,
     run rt (TtsServer.load_model name) w = (r, w1) -> P w -> P w1) ->
  (forall data w r w1,
     run rt (TtsServer.synthesize rt data) w = (r, w1) -> P w -> P w1) ->
  forall w w', later rt w w' -> P w -> P w'.
Proof.
  intros Hl Hs w w' H. induction H; intros HP; [done| |]; apply IHlater; eauto.
Qed.


Ltac norm_stores :=
  rewrite ?count_app, ?count_cons, ?count_nil in *;
  cbn [is_synth is_load is_store Nat.add] in *;
  rewrite ?Nat.add_0_r in *.

Lemma load_model_size rt name w r w1 :
  run rt (TtsServer.load_model name) w = (r, w1) ->
  size (loaded_models w) = count is_store (trace w) /\
  (count is_store (trace w) <= count is_load (trace w))%nat ->
  size (loaded_models w1) = count is_store (trace w1) /\
  (count is_store (trace w1) <= count is_load (trace w1))%nat.
Proof.
  unfold_handlers. intros Hrun [H1 H2]. revert Hrun.
  exec; intros; simplify_eq; exec_step; norm_stores;
    rewrite ?map_size_insert_None by done; lia.
Qed.

Lemma synthesize_size rt data w r w1 :
  run rt (TtsServer.synthesize rt data) w = (r, w1) ->
  size (loaded_models w) = count is_store (trace w) /\
  (count is_store (trace w) <= count is_load (trace w))%nat ->
  size (loaded_models w1) = count is_store (trace w1) /\
  (count is_store (trace w1) <= count is_load (trace w1))%nat.
Proof.
  unfold_handlers. intros Hrun [H1 H2]. revert Hrun.
  exec; intros; simplify_eq; exec_step; norm_stores;
    rewrite ?map_size_insert_None by done; lia.
Qed.

(** X12.  In a process whose calls and requests are served one after
    another, the number [/health] reports as [loaded_models] is the number
    of registrations the process has made since it started, one for each
    model name it resolved successfully, and at most the number of calls
    of [PiperVoice.load]: no name is counted twice and none is
    registered without a load. *)
Theorem health_counts_successful_loads rt (w0 w : world) :
  started w0 -> later rt w0 w ->
  snd (TtsServer.health w) = count is_store (trace w) /\
  (snd (TtsServer.health w) <= count is_load (trace w))%nat.
Proof.
  intros [Hm Ht] Hlater.
  assert (size (loaded_models w) = count is_store (trace w) /\
          (count is_store (trace w) <= count is_load (trace w))%nat) as [H1 H2].
  { eapply (later_invariant rt
              (fun w => size (loaded_models w) = count is_store (trace w) /\
                        (count is_store (trace w) <= count is_load (trace w))%nat));
      [| |exact Hlater|].
    - intros. eapply load_model_size; eauto.
    - intros. eapply synthesize_size; eauto.
    - rewrite Hm, Ht. split; [apply map_size_empty|reflexivity]. }
  unfold TtsServer.health. simpl. lia.
Qed.

Lemma health_counts_successful_loads_witness :
  snd (TtsServer.health (snd (run toy_rt (TtsServer.synthesize toy_rt hello) cold)))
  = count is_store (trace (snd (run toy_rt (TtsServer.synthesize toy_rt hello) cold))) /\
  (snd (TtsServer.health (snd (run toy_rt (TtsServer.synthesize toy_rt hello) cold)))
   <= count is_load (trace (snd (run toy_rt (TtsServer.synthesize toy_rt hello) cold))))%nat.
Proof.
  apply (health_counts_successful_loads toy_rt cold).
  - split; reflexivity.
  - eapply later_request; [apply surjective_pairing|apply later_now].
Defined.

(** X13.  Models are never unloaded: along any history of model
    resolutions and requests served one after another every entry of
    [loaded_models] stays, with the same voice, and the number [/health]
    reports never decreases. *)
Theorem health_never_decreases rt (w w' : world) :
  later rt w w' ->
  loaded_models w ⊆ loaded_models w' /\
  (snd (TtsServer.health w) <= snd (TtsServer.health w'))%nat.
Proof.
  intros Hlater.
  assert (loaded_models w ⊆ loaded_models w') as Hsub.
  { apply map_subseteq_spec. intros n v Hn. eapply later_keeps; eauto. }
  split; [done|]. by apply map_subseteq_size.
Qed.

Lemma health_never_decreases_witness :
  loaded_models cold
  ⊆ loaded_models (snd (run toy_rt (TtsServer.synthesize toy_rt hello) cold)) /\
  (snd (TtsServer.health cold)
   <= snd (TtsServer.health (snd (run toy_rt (TtsServer.synthesize toy_rt hello) cold))))%nat.
Proof.
  apply (health_never_decreases toy_rt cold).
  eapply later_request; [apply surjective_pairing|apply later_now].
Defined.






(** ** [/models] *)

Lemma ends_with_app suf p : Pathlib.ends_with suf (p +:+ suf) = true.
Proof.
  induction p as [|c p IH].
  - change ("" +:+ suf) with suf. destruct suf as [|a suf].
    + reflexivity.
    + cbn [Pathlib.ends_with]. by rewrite String.eqb_refl.
  - change (String c p +:+ suf) with (String c (p +:+ suf)).
    cbn [Pathlib.ends_with].
    destruct (String.eqb (String c (p +:+ suf)) suf); [done|exact IH].
Qed.

Lemma ends_with_inv suf s :
  Pathlib.ends_with suf s = true -> exists p, s = p +:+ suf.
Proof.
  induction s as [|c s IH]; cbn [Pathlib.ends_with].
  - destruct (String.eqb "" suf) eqn:E; [|done].
    apply String.eqb_eq in E as <-. by exists "".
  - destruct (String.eqb (String c s) suf) eqn:E.
    + apply String.eqb_eq in E as <-. by exists "".
    + intros H. destruct (IH H) as [p ->]. by exists (String c p).
Qed.

Lemma has_char_app c p q :
  Pathlib.has_char c (p +:+ q) = Pathlib.has_char c p || Pathlib.has_char c q.
Proof. induction p as [|a p IH]; simpl; [done|]. by rewrite IH, orb_assoc. Qed.

Lemma rfind_dot_onnx p : Pathlib.rfind "." (p +:+ ".onnx") = Some (String.length p).
Proof. induction p as [|c p IH]; [reflexivity|]. simpl. by rewrite IH. Qed.

Lemma substring_prefix p q : String.substring 0 (String.length p) (p +:+ q) = p.
Proof.
  induction p as [|c p IH]; simpl.
  - by destruct q.
  - by rewrite IH.
Qed.

Lemma stem_onnx p :
  Pathlib.stem (p +:+ ".onnx") = if String.eqb p "" then ".onnx" else p.
Proof.
  unfold Pathlib.stem. rewrite rfind_dot_onnx, append_length.
  destruct p as [|c p]; [reflexivity|].
  replace ((0 <? String.length (String c p))%nat) with true by done.
  replace ((String.length (String c p) <? String.length (String c p) + String.length ".onnx" - 1)%nat)
    with true by (symmetry; apply Nat.ltb_lt; simpl; lia).
  cbn [andb String.eqb]. apply (substring_prefix (String c p)).
Qed.

Lemma listed_iff w name :
  name ∈ TtsServer.list_models w <->
  exists p, (p +:+ ".onnx") ∈ models_dir w /\
            Pathlib.has_char "/" p = false /\
            name = if String.eqb p "" then ".onnx" else p.
Proof.
  unfold TtsServer.list_models.
  rewrite list_elem_of_In, in_map_iff. split.
  - intros (f & <- & Hf). apply filter_In in Hf as [Hin Hok].
    apply andb_true_iff in Hok as [Hslash Hend].
    apply ends_with_inv in Hend as [p ->].
    apply negb_true_iff in Hslash. rewrite has_char_app in Hslash.
    apply orb_false_iff in Hslash as [Hslash _].
    exists p. rewrite stem_onnx. repeat split; [|done].
    by apply list_elem_of_In, elem_of_elements in Hin.
  - intros (p & Hin & Hslash & ->). exists (p +:+ ".onnx").
    split; [apply stem_onnx|]. apply filter_In. split.
    + by apply list_elem_of_In, elem_of_elements.
    + rewrite has_char_app, Hslash, ends_with_app. reflexivity.
Qed.

(** X15.  [/models] lists every installed model that [load_model] can
    be asked for by name: if the file [<name>.onnx] is in the models
    directory, for a name that is not empty and has no slash, then
    [name] is in the list. *)
Theorem installed_models_are_listed (w : world) (name : string) :
  name <> "" -> Pathlib.has_char "/" name = false ->
  (name +:+ ".onnx") ∈ models_dir w ->
  name ∈ TtsServer.list_models w.
Proof.
  intros Hne Hslash Hin. apply listed_iff. exists name.
  repeat split; try done.
  destruct name; [done|reflexivity].
Qed.

Lemma installed_models_are_listed_witness :
  "en_US-lessac-medium" ∈ TtsServer.list_models cold.
Proof.
  apply (installed_models_are_listed cold "en_US-lessac-medium").
  - discriminate.
  - reflexivity.
  - vm_compute. set_solver.
Defined.



(** ** The voice of a backend call *)

Ltac in_events Hin :=
  repeat (apply elem_of_cons in Hin as [Hin|Hin]; [try discriminate Hin|]);
  try (apply elem_of_nil in Hin; destruct Hin).

(** X17.  Every backend call of a request is made with the right
    voice: in the tts-server with the voice that [loaded_models] holds
    under the request's model name when the request has been served, in
    piper-tts with the voice loaded at start-up, and piper-tts never
    touches [loaded_models]. *)
Theorem synthesis_uses_requested_voice
    srv rt v (data : body) (w w' : world) r (v' : voice) t ls :
  run rt (handler srv rt v data) w = (r, w') ->
  Synth v' t ls ∈ new_events w w' ->
  match srv with
  | Tts => loaded_models w' !! model_of data = Some v'
  | Piper => v' = v /\ loaded_models w' = loaded_models w
  end.
Proof.
  unfold model_of. destruct srv; unfold_handlers.
  - exec; intros [= <- <-]; norm_world w;
      rewrite ?new_events_replay, ?new_events_same; intros Hin;
      in_events Hin; simplify_eq;
      unfold replay; cbn [fold_left]; exec_step; rewrite ?lookup_insert_eq;
      done.
  - exec; intros [= <- <-]; norm_world w;
      rewrite ?new_events_replay, ?new_events_same; intros Hin;
      in_events Hin; simplify_eq;
      unfold replay; cbn [fold_left]; exec_step; done.
Qed.

Lemma synthesis_uses_requested_voice_witness :
  loaded_models (snd (run toy_rt (handler Tts toy_rt lessac hello) cold))
    !! model_of hello
  = Some (Voice 0 "en_US-lessac-medium.onnx").
Proof.
  apply (synthesis_uses_requested_voice Tts toy_rt lessac hello cold
           (snd (run toy_rt (handler Tts toy_rt lessac hello) cold))
           (fst (run toy_rt (handler Tts toy_rt lessac hello) cold))
           (Voice 0 "en_US-lessac-medium.onnx") "Hi" (Some Float64.one)).
  - apply surjective_pairing.
  - vm_compute. set_solver.
Defined.

(** ** Model loading by threads *)

Ltac load_budget_tac :=
  repeat (cbn [bind catch call of_result negb];
          lazymatch goal with
          | |- op_budget _ _ (Ret _) => apply op_budget_ret
          | |- op_budget _ _ (Raise _) => apply op_budget_raise
          | |- op_budget _ _ (Vis (ModelLoad _) _) =>
              apply op_budget_hit; [reflexivity | intros [?|?]]
          | |- op_budget _ _ (Vis _ _) =>
              apply op_budget_other; [reflexivity | intros [?|?]]
          | |- context [negb ?x] => split_on x
          | |- context [match ?x with _ => _ end] => split_on x
          | |- context [of_result ?x] => split_on x
          end).

Lemma handler_load_budget srv rt v data :
  op_budget is_load (loads_of srv) (handler srv rt v data).
Proof. destruct srv; unfold_handlers; cbn [loads_of]; load_budget_tac. Qed.

Lemma op_budget_vis_inv {A : Type} p n o (k : result (op_ret o) -> prog A) :
  op_budget p n (Vis o k) ->
  if p o
  then exists m, n = S m /\ forall r, op_budget p m (k r)
  else forall r, op_budget p n (k r).
Proof.
  intros H.
  change (match Vis o k with
          | Vis o k =>
              if p o
              then exists m, n = S m /\ forall r, op_budget p m (k r)
              else forall r, op_budget p n (k r)
          | _ => True
          end).
  destruct H as [| |n o' k' Ho Hk|n o' k' Ho Hk]; try done; rewrite Ho; eauto.
Qed.

Lemma pool_step_op_budget rt p w ps w' ps' ns :
  pool_step rt (w, ps) (w', ps') ->
  Forall2 (op_budget p) ns ps ->
  exists ns',
    Forall2 (op_budget p) ns' ps' /\
    (count p (trace w') + sum_list ns' <= count p (trace w) + sum_list ns)%nat.
Proof.
  inversion 1 as [i o k w0 ps0 Hi]; subst. intros Hns.
  destruct (Forall2_lookup_r _ _ _ _ _ Hns Hi) as (n & Hn & Hb).
  rewrite trace_effect, count_app, count_cons, count_nil.
  apply op_budget_vis_inv in Hb. destruct (p o).
  - destruct Hb as (m & -> & Hk).
    exists (<[i := m]> ns). split.
    + apply Forall2_insert; [done|]. apply Hk.
    + pose proof (sum_list_insert ns i _ m Hn). lia.
  - exists ns. split.
    + rewrite <- (list_insert_id ns i n) at 1 by done.
      apply Forall2_insert; [done|]. apply Hb.
    + lia.
Qed.

Lemma pool_steps_op_budget rt p c c' :
  rtc (pool_step rt) c c' ->
  forall ns, Forall2 (op_budget p) ns c.2 ->
  exists ns',
    Forall2 (op_budget p) ns' c'.2 /\
    (count p (trace c'.1) + sum_list ns' <= count p (trace c.1) + sum_list ns)%nat.
Proof.
  induction 1 as [c|[w ps] [w1 ps1] c' Hstep _ IH]; intros ns Hns.
  - exists ns. split; [done|lia].
  - destruct (pool_step_op_budget _ _ _ _ _ _ _ Hstep Hns) as (ns1 & Hns1 & Hle).
    destruct (IH _ Hns1) as (ns' & Hns' & Hle').
    exists ns'. split; [done|]. simpl in *. lia.
Qed.

(** X18.  Requests served by threads that interleave in any way call
    [PiperVoice.load] at most once for each tts-server request and never
    for a piper-tts request, whatever the state they start from.
    [load_model] does not hold a lock between its look-up and its store,
    so the bound can be reached: see [both_threads_load_the_model]. *)
Theorem pool_load_bound rt v (reqs : list (server * body)) (w : world) (c' : world * pool) :
  rtc (pool_step rt) (w, map (fun q => handler q.1 rt v q.2) reqs) c' ->
  (count is_load (new_events w c'.1) <= sum_list (map (fun q => loads_of q.1) reqs))%nat.
Proof.
  intros Hsteps.
  destruct (pool_steps_op_budget _ is_load _ _ Hsteps
              (map (fun q => loads_of q.1) reqs)) as (ns' & _ & Hle).
  { simpl. apply Forall2_fmap, Forall_Forall2_diag, Forall_forall.
    intros [srv d] _. apply handler_load_budget. }
  destruct (pool_steps_trace _ _ _ Hsteps) as [evs Hevs]. simpl in *.
  unfold new_events. rewrite Hevs, drop_app_length.
  rewrite Hevs, count_app in Hle. lia.
Qed.

Lemma pool_load_bound_witness :
  (count is_load (new_events cold racing_loads.1) <= 2)%nat.
Proof.
  apply (pool_load_bound toy_rt lessac [(Tts, hello_uncached); (Tts, hello_uncached)]
           cold racing_loads).
  apply schedule_steps.
Defined.

(** Two concurrent requests for a model that is not loaded yet both load
    it; the voice stored last replaces the other. *)
Example both_threads_load_the_model :
  count is_load (new_events cold racing_loads.1) = 2%nat /\
  map answer racing_loads.2
  = [Some (Ok (Response 200 (Audio (hex (Wav.pcm44 22050 100)) (S754_zero false)
                               (Some "en_US-lessac-medium") false)));
     Some (Ok (Response 200 (Audio (hex (Wav.pcm44 22050 100)) (S754_zero false)
                               (Some "en_US-lessac-medium") false)))] /\
  loaded_models racing_loads.1 !! "en_US-lessac-medium"
  = Some (Voice 1 "en_US-lessac-medium.onnx").
Proof. vm_compute. repeat split; reflexivity. Qed.

(** * Properties of [analyze_lufs] *)


Lemma prefix_inv p s : String.prefix p s = true -> exists b, s = p +:+ b.
Proof.
  revert s. induction p as [|c p IH]; intros s.
  - intros _. by exists s.
  - destruct s as [|d s]; simpl; [done|].
    destruct (ascii_dec c d) as [<-|]; [|done].
    intros H. destruct (IH s H) as [b ->]. by exists b.
Qed.

Lemma prefix_app p b : String.prefix p (p +:+ b) = true.
Proof.
  induction p as [|c p IH]; simpl; [by destruct b|].
  destruct (ascii_dec c c); [exact IH|done].
Qed.

Lemma contains_inv pat s :
  AnalyzeAudio.contains pat s = true -> exists a b, s = a +:+ pat +:+ b.
Proof.
  induction s as [|c s IH]; cbn [AnalyzeAudio.contains]; intros H;
    apply orb_true_iff in H as [H|H].
  - apply prefix_inv in H as [b ->]. by exists "", b.
  - done.
  - apply prefix_inv in H as [b ->]. by exists "", b.
  - destruct (IH H) as (a & b & ->). by exists (String c a), b.
Qed.

Lemma contains_app pat a b : AnalyzeAudio.contains pat (a +:+ pat +:+ b) = true.
Proof.
  induction a as [|c a IH].
  - change ("" +:+ pat +:+ b) with (pat +:+ b).
    destruct (pat +:+ b) eqn:E; cbn [AnalyzeAudio.contains];
      rewrite <- E, prefix_app; reflexivity.
  - change (String c a +:+ pat +:+ b) with (String c (a +:+ pat +:+ b)).
    cbn [AnalyzeAudio.contains]. rewrite IH. apply orb_true_r.
Qed.

Lemma app_assoc_string (a b c : string) : (a +:+ b) +:+ c = a +:+ b +:+ c.
Proof.
  induction a as [|x a IH]; [done|].
  change (String x ((a +:+ b) +:+ c) = String x (a +:+ b +:+ c)).
  by rewrite IH.
Qed.

Lemma contains_inside pat a l b :
  AnalyzeAudio.contains pat l = true ->
  AnalyzeAudio.contains pat (a +:+ l +:+ b) = true.
Proof.
  intros H. apply contains_inv in H as (x & y & ->).
  assert (a +:+ (x +:+ pat +:+ y) +:+ b = (a +:+ x) +:+ pat +:+ (y +:+ b)) as ->
    by (rewrite !app_assoc_string; reflexivity).
  apply contains_app.
Qed.

Lemma split_lines_head s :
  exists l ls b, AnalyzeAudio.split_lines s = l :: ls /\ s = l +:+ b.
Proof.
  induction s as [|c s (l & ls & b & Hs & Hb)]; cbn [AnalyzeAudio.split_lines].
  - by exists "", [], "".
  - destruct (Ascii.eqb c AnalyzeAudio.newline).
    + by exists "", (AnalyzeAudio.split_lines s), (String c s).
    + rewrite Hs. exists (String c l), ls, b. split; [done|].
      change (String c s = String c (l +:+ b)). by rewrite <- Hb.
Qed.

Lemma split_lines_elem s l :
  l ∈ AnalyzeAudio.split_lines s -> exists a b, s = a +:+ l +:+ b.
Proof.
  revert l. induction s as [|c s IH]; intros l; cbn [AnalyzeAudio.split_lines].
  - intros ->%list_elem_of_singleton. by exists "", "".
  - destruct (Ascii.eqb c AnalyzeAudio.newline).
    + intros [->|Hl]%elem_of_cons.
      * by exists "", (String c s).
      * destruct (IH l Hl) as (a & b & ->). by exists (String c a), b.
    + destruct (split_lines_head s) as (l0 & ls & b0 & Hs & Hb).
      rewrite Hs in *. intros [->|Hl]%elem_of_cons.
      * exists "", b0. change (String c s = String c (l0 +:+ b0)). by rewrite <- Hb.
      * destruct (IH l) as (a & b & ->); [by apply elem_of_cons; right|].
        by exists (String c a), b.
Qed.

Lemma contains_line pat s l :
  l ∈ AnalyzeAudio.split_lines s ->
  AnalyzeAudio.contains pat l = true -> AnalyzeAudio.contains pat s = true.
Proof.
  intros (a & b & ->)%split_lines_elem. apply contains_inside.
Qed.

Lemma scan_none rt jl lines :
  Forall (fun l => AnalyzeAudio.contains "input_i" l = false) lines ->
  AnalyzeAudio.scan rt jl lines = None.
Proof.
  induction 1 as [|l ls Hl _ IH]; cbn [AnalyzeAudio.scan]; [done|].
  by rewrite Hl.
Qed.

(** The test of the whole output before the loop does not change the
    result. *)
Lemma analyze_lufs_scan rt jl output :
  AnalyzeAudio.analyze_lufs rt jl output
  = AnalyzeAudio.scan rt jl (AnalyzeAudio.split_lines output).
Proof.
  unfold AnalyzeAudio.analyze_lufs.
  destruct (AnalyzeAudio.contains "input_i" output) eqn:E; [done|].
  symmetry. apply scan_none, Forall_forall. intros l Hl.
  destruct (AnalyzeAudio.contains "input_i" l) eqn:El; [|done].
  rewrite (contains_line _ _ _ Hl El) in E. done.
Qed.

Lemma scan_skip rt jl pre rest :
  Forall (fun l => AnalyzeAudio.contains "input_i" l = false) pre ->
  AnalyzeAudio.scan rt jl (pre ++ rest) = AnalyzeAudio.scan rt jl rest.
Proof.
  induction 1 as [|l ls Hl _ IH]; [done|].
  cbn [app AnalyzeAudio.scan]. by rewrite Hl.
Qed.

(** X19.  [analyze_lufs] returns the values read from the first line
    that holds [input_i], when the text from that line up to and
    including the first line with a closing brace can be read: what
    precedes the line and what follows the block is ignored. *)
Theorem analyze_lufs_reads_first_block
    rt json_loads (output : string) (pre post : list string) (l : string) m :
  AnalyzeAudio.split_lines output = pre ++ l :: post ->
  Forall (fun x => AnalyzeAudio.contains "input_i" x = false) pre ->
  AnalyzeAudio.contains "input_i" l = true ->
  AnalyzeAudio.read_loudness rt json_loads
    (AnalyzeAudio.join_lines (AnalyzeAudio.json_block (l :: post))) = Some m ->
  AnalyzeAudio.analyze_lufs rt json_loads output = Some m.
Proof.
  intros Hs Hpre Hl Hm.
  rewrite analyze_lufs_scan, Hs, scan_skip by done.
  cbn [AnalyzeAudio.scan]. by rewrite Hl, Hm.
Qed.

Lemma analyze_lufs_reads_first_block_witness :
  AnalyzeAudio.analyze_lufs toy_rt toy_json_loads one_line_report
  = Some (AnalyzeAudio.Loudness two (S754_zero false) (S754_zero false)
            (S754_zero false)).
Proof.
  apply (analyze_lufs_reads_first_block toy_rt toy_json_loads one_line_report
           ["frame=    1"]
           [""]
           ("{" +:+ quoted "input_i" +:+ " : " +:+ quoted "2.0" +:+ "}")).
  - vm_compute. reflexivity.
  - repeat constructor.
  - vm_compute. reflexivity.
  - vm_compute. reflexivity.
Defined.

Lemma first_nonblank_app a b c :
  AnalyzeAudio.first_nonblank a = Some c ->
  AnalyzeAudio.first_nonblank (a +:+ b) = Some c.
Proof.
  induction a as [|x a IH]; simpl; [done|].
  destruct (_ || _); [exact IH|done].
Qed.

Lemma first_nonblank_contains l :
  AnalyzeAudio.contains "input_i" l = true ->
  exists c, AnalyzeAudio.first_nonblank l = Some c.
Proof.
  induction l as [|x l IH]; cbn [AnalyzeAudio.contains]; intros H;
    apply orb_true_iff in H as [H|H]; try done.
  - apply prefix_inv in H as [b [= -> ->]]. by eexists.
  - cbn [AnalyzeAudio.first_nonblank].
    destruct (_ || _); [by apply IH|by eexists].
Qed.

Lemma append_empty (l : string) : l +:+ "" = l.
Proof.
  induction l as [|c l IH]; [done|].
  change (String c (l +:+ "") = String c l). by rewrite IH.
Qed.

Lemma block_head l rest :
  exists b, AnalyzeAudio.join_lines (AnalyzeAudio.json_block (l :: rest)) = l +:+ b.
Proof.
  cbn [AnalyzeAudio.json_block]. destruct (AnalyzeAudio.contains "}" l).
  - exists "". by rewrite append_empty.
  - unfold AnalyzeAudio.join_lines. cbn [String.concat].
    destruct (AnalyzeAudio.json_block rest) as [|x xs].
    + exists "". by rewrite append_empty.
    + by eexists.
Qed.

(** X20.  The text handed to [json.loads] starts with the line that
    holds [input_i], not with the line that opens the object.  Since
    [json.loads] returns a dict only for a text whose first character
    after white space is an opening brace, [analyze_lufs] returns [None]
    for every output in which no line that holds [input_i] starts with
    one, as when the braces are on lines of their own. *)
Theorem analyze_lufs_needs_brace_on_input_i_line
    rt json_loads (output : string) :
  (forall s d, json_loads s = Some d ->
               AnalyzeAudio.first_nonblank s = Some "{"%char) ->
  (forall l, l ∈ AnalyzeAudio.split_lines output ->
             AnalyzeAudio.contains "input_i" l = true ->
             AnalyzeAudio.first_nonblank l <> Some "{"%char) ->
  AnalyzeAudio.analyze_lufs rt json_loads output = None.
Proof.
  intros Hjson Hout. rewrite analyze_lufs_scan.
  induction (AnalyzeAudio.split_lines output) as [|l ls IH];
    cbn [AnalyzeAudio.scan]; [done|].
  assert (AnalyzeAudio.scan rt json_loads ls = None) as ->.
  { apply IH. intros x Hx. apply Hout. by apply elem_of_cons; right. }
  destruct (AnalyzeAudio.contains "input_i" l) eqn:Hl; [|done].
  unfold AnalyzeAudio.read_loudness.
  destruct (json_loads _) as [d|] eqn:Hd; [|done].
  exfalso. apply Hjson in Hd.
  destruct (block_head l ls) as [b Hb]. rewrite Hb in Hd.
  destruct (first_nonblank_contains l Hl) as [c Hc].
  rewrite (first_nonblank_app _ _ _ Hc) in Hd.
  apply (Hout l); [by apply elem_of_cons; left|done|congruence].
Qed.

Lemma analyze_lufs_needs_brace_on_input_i_line_witness :
  AnalyzeAudio.analyze_lufs toy_rt toy_json_loads ffmpeg_report = None.
Proof.
  apply (analyze_lufs_needs_brace_on_input_i_line toy_rt toy_json_loads ffmpeg_report).
  - intros s d. unfold toy_json_loads.
    destruct (AnalyzeAudio.first_nonblank s) as [c|]; [|discriminate].
    destruct (Ascii.eqb c "{") eqn:E; [|discriminate].
    apply Ascii.eqb_eq in E as ->. reflexivity.
  - intros l Hl. vm_compute in Hl.
    repeat (apply elem_of_cons in Hl as [->|Hl];
            [vm_compute; intros H1 H2; first [discriminate H1|discriminate H2]|]).
    by apply elem_of_nil in Hl.
Defined.
